(** * Activation-code servers: a shallow embedding and its properties

  The repository holds two Flask services that check software activation
  codes of the shape [PREFIX-TYPE-DATE-SALT-SIGNATURE]:

  - [activation_server.py] keeps the registry in memory, activates a code
    the first time it is verified and lets it expire (module [PolicyA]);
  - [cloud_server.py] re-reads the registry file on every request, verifies
    read-only and marks codes used through a separate call (module
    [PolicyB]).

  Python [str] values are modelled by [string], holding the UTF-8 bytes of
  the text; the character-level primitives below ([upper], [strip], [int])
  follow CPython on ASCII text and leave bytes above 127 alone. *)

From Stdlib Require Import ZArith List String Ascii Bool Lia DecimalString DecimalPos.
From stdpp Require Import base option gmap strings.
Import ListNotations.

Local Open Scope string_scope.
Local Open Scope Z_scope.

(** ** Python string primitives *)

Module PyStr.

Definition code_of (c : ascii) : Z := Z.of_N (N_of_ascii c).

(** [s.encode()]: the bytes of the text. *)
Fixpoint encode (s : string) : list Z :=
  match s with
  | EmptyString => []
  | String c r => code_of c :: encode r
  end.

(** [bool(s)] of a string: the empty string is falsy. *)
Definition truthy (s : string) : bool :=
  match s with EmptyString => false | String _ _ => true end.

Definition upper_char (c : ascii) : ascii :=
  let n := code_of c in
  if (97 <=? n) && (n <=? 122) then ascii_of_N (Z.to_N (n - 32)) else c.

(** [s.upper()]. *)
Fixpoint upper (s : string) : string :=
  match s with
  | EmptyString => EmptyString
  | String c r => String (upper_char c) (upper r)
  end.

(** Characters removed by [str.strip()]: tab, newline, vertical tab, form
    feed, carriage return, the four separators 28..31 and the space. *)
Definition is_space (c : ascii) : bool :=
  let n := code_of c in
  ((9 <=? n) && (n <=? 13)) || ((28 <=? n) && (n <=? 31)) || (n =? 32).

Fixpoint lstrip (s : string) : string :=
  match s with
  | EmptyString => EmptyString
  | String c r => if is_space c then lstrip r else s
  end.

Fixpoint rstrip (s : string) : string :=
  match s with
  | EmptyString => EmptyString
  | String c r =>
      match rstrip r with
      | EmptyString => if is_space c then EmptyString else String c EmptyString
      | r' => String c r'
      end
  end.

(** [s.strip()]. *)
Definition strip (s : string) : string := rstrip (lstrip s).

(** [s.split(sep)] for a one-character separator: never an empty list. *)
Fixpoint split (sep : ascii) (s : string) : list string :=
  match s with
  | EmptyString => [EmptyString]
  | String c r =>
      if Ascii.eqb c sep then EmptyString :: split sep r
      else match split sep r with
           | [] => [String c EmptyString]
           | h :: t => String c h :: t
           end
  end.

(** [s[:n]]. *)
Fixpoint take (n : nat) (s : string) : string :=
  match n, s with
  | S k, String c r => String c (take k r)
  | _, _ => EmptyString
  end.

(** [s[n:]]. *)
Fixpoint drop (n : nat) (s : string) : string :=
  match n, s with
  | S k, String _ r => drop k r
  | _, _ => s
  end.

(** [s.startswith(c)] for a one-character prefix. *)
Definition startswith (c : ascii) (s : string) : bool :=
  match s with
  | String d _ => Ascii.eqb d c
  | EmptyString => false
  end.

Definition is_digit (c : ascii) : bool :=
  let n := code_of c in (48 <=? n) && (n <=? 57).

Definition digit_val (c : ascii) : Z := code_of c - 48.

(** White space skipped by [int()] around an ASCII literal: the C locale's
    [isspace] (the separators 28..31 are not part of it). *)
Definition is_cspace (c : ascii) : bool :=
  let n := code_of c in ((9 <=? n) && (n <=? 13)) || (n =? 32).

Fixpoint skip_cspace (s : string) : string :=
  match s with
  | EmptyString => EmptyString
  | String c r => if is_cspace c then skip_cspace r else s
  end.

(** The digits of a literal after its first one: digits, each optionally
    preceded by one underscore.  Returns the value, the number of digits
    and the unread rest. *)
Fixpoint int_digits (s : string) (acc : Z) (count : nat) : Z * nat * string :=
  match s with
  | String c r =>
      if is_digit c then int_digits r (10 * acc + digit_val c) (S count)
      else if Ascii.eqb c "_" then
        match r with
        | String d r' =>
            if is_digit d then int_digits r' (10 * acc + digit_val d) (S count)
            else (acc, count, s)
        | EmptyString => (acc, count, s)
        end
      else (acc, count, s)
  | EmptyString => (acc, count, s)
  end.

(** [sys.int_info.default_max_str_digits]. *)
Definition int_max_str_digits : nat := 4300.

Definition int_unsigned (s : string) : option Z :=
  match s with
  | String c r =>
      if is_digit c then
        match int_digits r (digit_val c) 1 with
        | (v, count, rest) =>
            match skip_cspace rest with
            | EmptyString =>
                if (count <=? int_max_str_digits)%nat then Some v else None
            | _ => None
            end
        end
      else None
  | EmptyString => None
  end.

(** [int(s)] in base ten; [None] stands for [ValueError]. *)
Definition int (s : string) : option Z :=
  match skip_cspace s with
  | String c r =>
      if Ascii.eqb c "+" then int_unsigned r
      else if Ascii.eqb c "-" then option_map Z.opp (int_unsigned r)
      else int_unsigned (String c r)
  | EmptyString => None
  end.


(** [str(n)] of an integer: its decimal numeral. *)
Definition str_of_int (n : Z) : string := NilZero.string_of_int (Z.to_int n).

(** ["-".join(parts)]. *)
Fixpoint join (sep : string) (parts : list string) : string :=
  match parts with
  | [] => EmptyString
  | [p] => p
  | p :: rest => (p ++ sep ++ join sep rest)%string
  end.

End PyStr.

(** ** [hashlib.sha256] and [hmac] over byte lists *)

Module Digest.

Definition mask32 : Z := 4294967295.

Definition add32 (x y : Z) : Z := Z.land (x + y) mask32.

Definition rotr (n x : Z) : Z :=
  Z.lor (Z.shiftr x n) (Z.land (Z.shiftl x (32 - n)) mask32).

Definition ch (x y z : Z) : Z :=
  Z.lxor (Z.land x y) (Z.land (Z.lxor x mask32) z).

Definition maj (x y z : Z) : Z :=
  Z.lxor (Z.lxor (Z.land x y) (Z.land x z)) (Z.land y z).

Definition big_sigma0 (x : Z) : Z :=
  Z.lxor (Z.lxor (rotr 2 x) (rotr 13 x)) (rotr 22 x).

Definition big_sigma1 (x : Z) : Z :=
  Z.lxor (Z.lxor (rotr 6 x) (rotr 11 x)) (rotr 25 x).

Definition small_sigma0 (x : Z) : Z :=
  Z.lxor (Z.lxor (rotr 7 x) (rotr 18 x)) (Z.shiftr x 3).

Definition small_sigma1 (x : Z) : Z :=
  Z.lxor (Z.lxor (rotr 17 x) (rotr 19 x)) (Z.shiftr x 10).

(** Round constants: the fractional parts of the cube roots of the first
    sixty-four primes. *)
Definition round_constants : list Z :=
  [ 1116352408; 1899447441; 3049323471; 3921009573; 961987163; 1508970993;
    2453635748; 2870763221; 3624381080; 310598401; 607225278; 1426881987;
    1925078388; 2162078206; 2614888103; 3248222580; 3835390401; 4022224774;
    264347078; 604807628; 770255983; 1249150122; 1555081692; 1996064986;
    2554220882; 2821834349; 2952996808; 3210313671; 3336571891; 3584528711;
    113926993; 338241895; 666307205; 773529912; 1294757372; 1396182291;
    1695183700; 1986661051; 2177026350; 2456956037; 2730485921; 2820302411;
    3259730800; 3345764771; 3516065817; 3600352804; 4094571909; 275423344;
    430227734; 506948616; 659060556; 883997877; 958139571; 1322822218;
    1537002063; 1747873779; 1955562222; 2024104815; 2227730452; 2361852424;
    2428436474; 2756734187; 3204031479; 3329325298 ].

(** The eight working words. *)
Record regs := Regs {
  ra : Z; rb : Z; rc : Z; rd : Z; re : Z; rf : Z; rg : Z; rh : Z }.

Definition initial_regs : regs :=
  Regs 1779033703 3144134277 1013904242 2773480762
       1359893119 2600822924 528734635 1541459225.

(** Big-endian word of four bytes. *)
Definition word_of (b3 b2 b1 b0 : Z) : Z :=
  Z.lor (Z.lor (Z.shiftl b3 24) (Z.shiftl b2 16)) (Z.lor (Z.shiftl b1 8) b0).

Fixpoint words_of (bs : list Z) : list Z :=
  match bs with
  | b3 :: b2 :: b1 :: b0 :: rest => word_of b3 b2 b1 b0 :: words_of rest
  | _ => []
  end.

Definition bytes_of_word (w : Z) : list Z :=
  [ Z.land (Z.shiftr w 24) 255; Z.land (Z.shiftr w 16) 255;
    Z.land (Z.shiftr w 8) 255; Z.land w 255 ].

(** The message schedule, newest word first: [n] more words are added to
    the words already in [ws]. *)
Fixpoint extend_schedule (n : nat) (ws : list Z) : list Z :=
  match n with
  | O => ws
  | S k =>
      let w :=
        add32 (add32 (small_sigma1 (nth 1 ws 0)) (nth 6 ws 0))
              (add32 (small_sigma0 (nth 14 ws 0)) (nth 15 ws 0)) in
      extend_schedule k (w :: ws)
  end.

Definition schedule (block : list Z) : list Z :=
  rev (extend_schedule 48 (rev (words_of block))).

Definition round (r : regs) (kw : Z * Z) : regs :=
  let t1 :=
    add32 (add32 (add32 (rh r) (big_sigma1 (re r)))
                 (add32 (ch (re r) (rf r) (rg r)) (fst kw))) (snd kw) in
  let t2 := add32 (big_sigma0 (ra r)) (maj (ra r) (rb r) (rc r)) in
  Regs (add32 t1 t2) (ra r) (rb r) (rc r) (add32 (rd r) t1) (re r) (rf r) (rg r).

Definition compress (h : regs) (block : list Z) : regs :=
  let r := fold_left round (combine round_constants (schedule block)) h in
  Regs (add32 (ra h) (ra r)) (add32 (rb h) (rb r)) (add32 (rc h) (rc r))
       (add32 (rd h) (rd r)) (add32 (re h) (re r)) (add32 (rf h) (rf r))
       (add32 (rg h) (rg r)) (add32 (rh h) (rh r)).

(** Padding: one [0x80] byte, zeros up to 56 modulo 64, the bit length on
    eight bytes. *)
Definition pad (msg : list Z) : list Z :=
  let len := Z.of_nat (List.length msg) in
  let zeros := Z.to_nat ((55 - len) mod 64) in
  let bits := 8 * len in
  msg ++ [128] ++ repeat 0 zeros
      ++ bytes_of_word (Z.land (Z.shiftr bits 32) mask32)
      ++ bytes_of_word (Z.land bits mask32).

Fixpoint blocks (fuel : nat) (bs : list Z) : list (list Z) :=
  match fuel, bs with
  | S k, _ :: _ => firstn 64 bs :: blocks k (skipn 64 bs)
  | _, _ => []
  end.

Definition bytes_of_regs (r : regs) : list Z :=
  bytes_of_word (ra r) ++ bytes_of_word (rb r) ++ bytes_of_word (rc r)
    ++ bytes_of_word (rd r) ++ bytes_of_word (re r) ++ bytes_of_word (rf r)
    ++ bytes_of_word (rg r) ++ bytes_of_word (rh r).

(** [hashlib.sha256(msg).digest()]. *)
Definition sha256 (msg : list Z) : list Z :=
  let p := pad msg in
  bytes_of_regs (fold_left compress (blocks (List.length p) p) initial_regs).

Definition block_size : nat := 64.

(** The key as [hmac] uses it: hashed when longer than a block, then
    filled with zeros to a whole block. *)
Definition hmac_key (key : list Z) : list Z :=
  let k := if (block_size <? List.length key)%nat then sha256 key else key in
  k ++ repeat 0 (block_size - List.length k).

(** [hmac.new(key, msg, hashlib.sha256).digest()]. *)
Definition hmac_sha256 (key msg : list Z) : list Z :=
  let k := hmac_key key in
  sha256 (map (Z.lxor 92) k ++ sha256 (map (Z.lxor 54) k ++ msg)).

Definition hex_digit (n : Z) : ascii :=
  if n <? 10 then ascii_of_N (Z.to_N (48 + n)) else ascii_of_N (Z.to_N (87 + n)).

(** [.hexdigest()]: two lower-case hexadecimal digits per byte. *)
Fixpoint hexdigest (bs : list Z) : string :=
  match bs with
  | [] => EmptyString
  | b :: rest =>
      String (hex_digit (Z.shiftr b 4)) (String (hex_digit (Z.land b 15)) (hexdigest rest))
  end.

End Digest.

(** ** Effects: exceptions threaded through a world *)

Module Eff.

Inductive exn : Type :=
| ValueError
| KeyError
| TypeError
| OverflowError
| OSError.

Inductive outcome (A : Type) : Type :=
| Return (a : A)
| Raise (e : exn).

Arguments Return {A} a.
Arguments Raise {A} e.

(** A computation over a world [W]: it returns or raises, and leaves a world
    behind in both cases. *)
Definition M (W A : Type) : Type := W -> outcome A * W.

Definition ret {W A : Type} (a : A) : M W A := fun w => (Return a, w).

Definition raise {W A : Type} (e : exn) : M W A := fun w => (Raise e, w).

Definition bind {W A B : Type} (m : M W A) (k : A -> M W B) : M W B :=
  fun w =>
    match m w with
    | (Return a, w') => k a w'
    | (Raise e, w') => (Raise e, w')
    end.

(** [try: body except Exception as e: handler(e)]. *)
Definition try_except {W A : Type} (body : M W A) (handler : exn -> M W A) : M W A :=
  fun w =>
    match body w with
    | (Return a, w') => (Return a, w')
    | (Raise e, w') => handler e w'
    end.

Notation "x <- m ;; k" := (bind m (fun x => k))
  (at level 100, m at next level, right associativity).
Notation "m ;;; k" := (bind m (fun _ => k))
  (at level 100, right associativity).

(** Text of a message: a literal, or an f-string that ends in [str(e)] of
    the exception caught. *)
Inductive msg : Type :=
| Text (s : string)
| Failure (prefix : string) (e : exn).

End Eff.

(** ** [cloud_server.py]: read-only verification, separate activation *)

Module PolicyB.
Import Eff.

Definition SECRET_KEY : string := "SIQIU-2025-AI-ASSISTANT-SECRET-KEY-PLEASE-CHANGE".

(** A JSON member that may be missing, [null] or a string. *)
Inductive field : Type :=
| Absent
| PyNone
| Str (s : string).

(** One entry of [db["codes"]]. *)
Record record : Type := Record_ {
  rec_type : string;
  rec_code : string;
  rec_created_at : string;
  rec_used : bool;
  rec_used_at : field;
  rec_used_by : field;
  rec_days : option Z }.

(** The registry file's content. *)
Record database : Type := Database {
  codes : gmap string record;
  created_at : option string;
  version : string }.

(** What a request handler runs against: the registry file ([None] when it
    is missing, unreadable or not JSON), whether [open(DB_FILE, 'w')]
    succeeds (when it raises, the file is left as it was), and the wall
    clock, given as the texts that successive calls of
    [datetime.now().strftime("%Y-%m-%d %H:%M:%S")] return. *)
Record world : Type := World {
  disk : option database;
  writable : bool;
  clock : nat -> string;
  reads : nat }.

Definition now_text : M world string :=
  fun w => (Return (clock w (reads w)),
            World (disk w) (writable w) (clock w) (S (reads w))).

Definition load_database : M world database :=
  fun w =>
    match disk w with
    | Some db => (Return db, w)
    | None => (Return (Database ∅ None "cloud_v1.0"), w)
    end.

Definition save_database (data : database) : M world unit :=
  fun w =>
    if writable w
    then (Return tt, World (Some data) (writable w) (clock w) (reads w))
    else (Raise OSError, w).

Definition hash_code (code : string) : string :=
  Digest.hexdigest (Digest.sha256 (PyStr.encode code)).

Definition generate_signature (data : string) : string :=
  PyStr.upper
    (PyStr.take 16
       (Digest.hexdigest
          (Digest.hmac_sha256 (PyStr.encode SECRET_KEY) (PyStr.encode data)))).

(** Body and status of an [/api/verify] answer. *)
Record verify_result : Type := VerifyResult {
  v_status : Z;
  valid : bool;
  message : msg;
  code_type : option string;
  days : option Z }.

Definition invalid (status : Z) (m : msg) : verify_result :=
  VerifyResult status false m None None.

(** [code_info.get('used_at', '未知')] inside the f-string. *)
Definition used_at_text (f : field) : string :=
  match f with
  | Absent => "未知"
  | PyNone => "None"
  | Str s => s
  end.

Definition used_message (f : field) : msg :=
  Text ("激活码已被使用（使用时间：" ++ used_at_text f ++ "）")%string.

Definition valid_message (n : Z) : msg :=
  Text (if n =? 0 then "永久激活码"
        else (PyStr.str_of_int n ++ "天试用激活码")%string).

Definition verify_code (code_arg : string) : M world verify_result :=
  try_except
    (let code := PyStr.upper (PyStr.strip code_arg) in
     if negb (PyStr.truthy code) then
       ret (invalid 400 (Text "激活码不能为空"))
     else
       let parts := PyStr.split "-" code in
       if negb (Nat.eqb (List.length parts) 5) then
         ret (invalid 400 (Text "激活码格式错误"))
       else
         match parts with
         | [prefix; type_code; timestamp; salt; signature] =>
             let sign_data :=
               (prefix ++ "-" ++ type_code ++ "-" ++ timestamp ++ "-" ++ salt)%string in
             let expected_signature := generate_signature sign_data in
             if negb (String.eqb signature expected_signature) then
               ret (invalid 400 (Text "激活码无效（签名验证失败）"))
             else
               db <- load_database ;;
               let code_hash := hash_code code in
               match
                 match codes db !! code_hash with
                 | Some code_info =>
                     if rec_used code_info
                     then Some (invalid 400 (used_message (rec_used_at code_info)))
                     else None
                 | None => None
                 end
               with
               | Some already_used => ret already_used
               | None =>
                   if String.eqb type_code "P000" then
                     ret (VerifyResult 200 true (valid_message 0) (Some "永久") (Some 0))
                   else if PyStr.startswith "D" type_code then
                     match PyStr.int (PyStr.drop 1 type_code) with
                     | Some n =>
                         ret (VerifyResult 200 true (valid_message n) (Some "试用") (Some n))
                     | None => raise ValueError
                     end
                   else
                     ret (invalid 400 (Text "激活码类型错误"))
               end
         | _ => raise ValueError
         end)
    (fun e => ret (invalid 500 (Failure "验证失败：" e))).

(** Body and status of an [/api/activate] answer. *)
Record activate_result : Type := ActivateResult {
  a_status : Z;
  success : bool;
  a_message : msg }.

Definition set_codes (db : database) (m : gmap string record) : database :=
  Database m (created_at db) (version db).

(** The three assignments [used], [used_at], [used_by] on a stored entry. *)
Definition mark_used (r : record) (at_text by_addr : string) : record :=
  Record_ (rec_type r) (rec_code r) (rec_created_at r)
          true (Str at_text) (Str by_addr) (rec_days r).

Definition activate_code (code_arg remote_addr : string) : M world activate_result :=
  try_except
    (let code := PyStr.upper (PyStr.strip code_arg) in
     if negb (PyStr.truthy code) then
       ret (ActivateResult 400 false (Text "激活码不能为空"))
     else
       db <- load_database ;;
       let code_hash := hash_code code in
       db <- match codes db !! code_hash with
             | Some _ => ret db
             | None =>
                 let parts := PyStr.split "-" code in
                 if Nat.eqb (List.length parts) 5 then
                   let type_code := nth 1 parts EmptyString in
                   td <- (if String.eqb type_code "P000" then ret ("永久", 0)
                          else if PyStr.startswith "D" type_code then
                            match PyStr.int (PyStr.drop 1 type_code) with
                            | Some n => ret ("试用", n)
                            | None => raise ValueError
                            end
                          else ret ("未知", 0)) ;;
                   created <- now_text ;;
                   ret (set_codes db
                          (<[code_hash :=
                               Record_ (fst td) code created false Absent Absent
                                       (if 0 <? snd td then Some (snd td) else None)]>
                             (codes db)))
                 else ret db
             end ;;
       match codes db !! code_hash with
       | None => raise KeyError
       | Some r =>
           used_at <- now_text ;;
           save_database
             (set_codes db (<[code_hash := mark_used r used_at remote_addr]> (codes db))) ;;;
           ret (ActivateResult 200 true (Text "激活码已标记为使用"))
       end)
    (fun e => ret (ActivateResult 500 false (Failure "标记失败：" e))).

End PolicyB.

(** ** [activation_server.py]: activation on first verification, expiry *)

Module PolicyA.
Import Eff.

(** A naive [datetime]: microseconds since 0001-01-01T00:00:00.  The stored
    ISO text of a datetime is modelled by the datetime itself
    ([datetime.fromisoformat] inverts [isoformat]). *)
Definition datetime : Type := Z.

Definition day : Z := 86400000000.

(** [datetime.max], 9999-12-31T23:59:59.999999. *)
Definition datetime_max : Z := 3652059 * day - 1.

(** [timedelta.max.days]. *)
Definition timedelta_max_days : Z := 999999999.

(** One entry of [db["codes"]]. *)
Record record : Type := Record_ {
  rec_code : string;
  rec_type : string;
  duration_days : Z;
  notes : string;
  generated_at : datetime;
  activated : bool;
  activated_at : option datetime;
  device_id : option string }.

(** One entry of [db["logs"]]. *)
Record log_entry : Type := LogEntry {
  log_timestamp : datetime;
  log_action : string;
  log_code : string;
  log_result : bool;
  log_message : msg }.

Record database : Type := Database {
  codes : gmap string record;
  logs : list log_entry }.

(** The process: the registry object's [self.db], the registry file
    ([None] when missing or unreadable), whether the file can be opened for
    writing (when it cannot, it is left as it was), and the wall clock as the
    values of successive [datetime.now()] calls. *)
Record world : Type := World {
  db : database;
  disk : option database;
  writable : bool;
  clock : nat -> datetime;
  reads : nat }.

Definition datetime_now : M world datetime :=
  fun w => (Return (clock w (reads w)),
            World (db w) (disk w) (writable w) (clock w) (S (reads w))).

(** [t + timedelta(days=n)]: both the [timedelta] and the sum raise
    [OverflowError] out of range. *)
Definition add_days {W : Type} (t : datetime) (n : Z) : M W datetime :=
  if (n <? - timedelta_max_days) || (timedelta_max_days <? n) then raise OverflowError
  else
    let r := t + n * day in
    if (r <? 0) || (datetime_max <? r) then raise OverflowError else ret r.

(** [datetime.fromisoformat(x)]: a [TypeError] on [None]. *)
Definition fromisoformat {W : Type} (x : option datetime) : M W datetime :=
  match x with
  | Some t => ret t
  | None => raise TypeError
  end.

(** [save_database]: a failure is logged and swallowed. *)
Definition save_database : M world unit :=
  fun w =>
    if writable w
    then (Return tt, World (db w) (Some (db w)) (writable w) (clock w) (reads w))
    else (Return tt, w).

Definition get_db : M world database := fun w => (Return (db w), w).

Definition put_db (d : database) : M world unit :=
  fun w => (Return tt, World d (disk w) (writable w) (clock w) (reads w)).

Definition hash_code (code : string) : string :=
  Digest.hexdigest (Digest.sha256 (PyStr.encode code)).

(** The dictionary [verify_code] returns. *)
Record verify_result : Type := VerifyResult {
  valid : bool;
  message : msg;
  res_type : option string;
  res_activated_at : option datetime;
  expire_at : option datetime }.

Definition activate_record (r : record) (t : datetime) : record :=
  Record_ (rec_code r) (rec_type r) (duration_days r) (notes r) (generated_at r)
          true (Some t) (device_id r).

Definition activated_message (r : record) : msg :=
  Text ("激活成功！(" ++ rec_type r ++ ", 有效期"
          ++ PyStr.str_of_int (duration_days r) ++ "天)")%string.

(** [ActivationDatabase.verify_code]. *)
Definition verify_code (code : string) : M world verify_result :=
  let code_hash := hash_code code in
  d <- get_db ;;
  match codes d !! code_hash with
  | None => ret (VerifyResult false (Text "激活码不存在") None None None)
  | Some code_info =>
      if activated code_info then
        t0 <- fromisoformat (activated_at code_info) ;;
        expire <- add_days t0 (duration_days code_info) ;;
        now <- datetime_now ;;
        if expire <? now then
          ret (VerifyResult false (Text "激活码已过期") (Some (rec_type code_info)) None None)
        else
          ret (VerifyResult true (Text "激活码有效") (Some (rec_type code_info))
                            (activated_at code_info) (Some expire))
      else
        t1 <- datetime_now ;;
        put_db (Database (<[code_hash := activate_record code_info t1]> (codes d)) (logs d)) ;;;
        save_database ;;;
        t2 <- datetime_now ;;
        expire <- add_days t2 (duration_days code_info) ;;
        ret (VerifyResult true (activated_message code_info) (Some (rec_type code_info))
                          (Some t1) (Some expire))
  end.

(** [ActivationDatabase.add_log]: append, keep the newest 1000, save. *)
Definition add_log (action code_text : string) (result : bool) (m : msg) : M world unit :=
  t <- datetime_now ;;
  d <- get_db ;;
  let entries := (logs d ++ [LogEntry t action code_text result m])%list in
  let kept :=
    if (1000 <? List.length entries)%nat
    then skipn (List.length entries - 1000) entries
    else entries in
  put_db (Database (codes d) kept) ;;;
  save_database.

Definition generate_signature (SECRET_KEY data : string) : string :=
  PyStr.upper
    (PyStr.take 16
       (Digest.hexdigest
          (Digest.hmac_sha256 (PyStr.encode SECRET_KEY) (PyStr.encode data)))).

(** The value of [SECRET_KEY] when [ACTIVATION_SECRET_KEY] is not set. *)
Definition default_secret_key : string :=
  "SIQIU-2025-AI-ASSISTANT-SECRET-KEY-PLEASE-CHANGE".

Definition refuse (m : msg) : verify_result := VerifyResult false m None None None.

(** The [/api/verify] handler: HTTP status and JSON body. *)
Definition verify_activation (SECRET_KEY code_arg : string) : M world (Z * verify_result) :=
  try_except
    (let code := PyStr.upper (PyStr.strip code_arg) in
     if negb (PyStr.truthy code) then
       ret (400, refuse (Text "激活码不能为空"))
     else
       let parts := PyStr.split "-" code in
       if negb (Nat.eqb (List.length parts) 5) then
         ret (200, refuse (Text "激活码格式错误"))
       else
         match parts with
         | [prefix; type_code; timestamp; salt; signature] =>
             let sign_data :=
               (prefix ++ "-" ++ type_code ++ "-" ++ timestamp ++ "-" ++ salt)%string in
             let expected_signature := generate_signature SECRET_KEY sign_data in
             if negb (String.eqb signature expected_signature) then
               ret (200, refuse (Text "激活码签名验证失败"))
             else
               result <- verify_code code ;;
               add_log "verify" (PyStr.take 10 code ++ "...")%string
                       (valid result) (message result) ;;;
               ret (200, result)
         | _ => raise ValueError
         end)
    (fun e => ret (500, refuse (Failure "服务器错误: " e))).

End PolicyA.

(** ** Formatting: [str.lower], [format(n, "0wd")], [strftime] *)

Module PyFormat.

Definition lower_char (c : ascii) : ascii :=
  let n := PyStr.code_of c in
  if (65 <=? n) && (n <=? 90) then ascii_of_N (Z.to_N (n + 32)) else c.

(** [s.lower()]. *)
Fixpoint lower (s : string) : string :=
  match s with
  | EmptyString => EmptyString
  | String c r => String (lower_char c) (lower r)
  end.

Fixpoint zeros (n : nat) : string :=
  match n with
  | O => EmptyString
  | S k => String "0" (zeros k)
  end.

(** [f"{n:0{width}d}"]: the sign, then the decimal digits of the magnitude
    filled with zeros on the left up to [width] characters in all. *)
Definition zfill_int (width : nat) (n : Z) : string :=
  let sign := if n <? 0 then "-" else "" in
  let digits := PyStr.str_of_int (Z.abs n) in
  (sign ++ zeros (width - String.length sign - String.length digits) ++ digits)%string.

(** Year, month and day of a [datetime] (proleptic Gregorian calendar; the
    years are counted from the first of March inside the computation). *)
Definition civil (t : Z) : Z * Z * Z :=
  let z := t / 86400000000 + 306 in
  let era := z / 146097 in
  let doe := z mod 146097 in
  let yoe := (doe - doe / 1460 + doe / 36524 - doe / 146096) / 365 in
  let doy := doe - (365 * yoe + yoe / 4 - yoe / 100) in
  let mp := (5 * doy + 2) / 153 in
  let d := doy - (153 * mp + 2) / 5 + 1 in
  let m := if mp <? 10 then mp + 3 else mp - 9 in
  (yoe + era * 400 + (if m <=? 2 then 1 else 0), m, d).

(** [t.strftime("%y%m%d")]. *)
Definition strftime_ymd (t : Z) : string :=
  match civil t with
  | (y, m, d) => (zfill_int 2 (y mod 100) ++ zfill_int 2 m ++ zfill_int 2 d)%string
  end.

(** Without its dashes. *)
Fixpoint undash (s : string) : string :=
  match s with
  | EmptyString => EmptyString
  | String c r => if Ascii.eqb c "-" then undash r else String c (undash r)
  end.

(** Up to the first space. *)
Fixpoint date_part (s : string) : string :=
  match s with
  | EmptyString => EmptyString
  | String c r => if Ascii.eqb c " " then EmptyString else String c (date_part r)
  end.

(** [t.strftime("%Y%m%d")], read off the text that
    [t.strftime("%Y-%m-%d %H:%M:%S")] gives for the same [t]: the date part
    without its dashes. *)
Definition ymd_of_text (text : string) : string := undash (date_part text).

End PyFormat.

(** ** [activation_server.py]: registration, issuing and statistics *)

Module PolicyAAdmin.
Import Eff PolicyA.

(** [ActivationDatabase.add_code]. *)
Definition add_code (code type_name : string) (duration_days : Z) (notes : string) :
    M world unit :=
  t <- datetime_now ;;
  d <- get_db ;;
  put_db (Database
            (<[hash_code code :=
                 Record_ code type_name duration_days notes t false None None]> (codes d))
            (logs d)) ;;;
  save_database.

(** [string.ascii_uppercase + string.digits]. *)
Definition alphabet : list ascii :=
  list_ascii_of_string "ABCDEFGHIJKLMNOPQRSTUVWXYZ0123456789".

(** One draw of [random.choices] from the alphabet: the element at the
    position drawn. *)
Definition choice (i : nat) : ascii := nth (i mod 36) alphabet "A"%char.

(** The four draws of one [random.choices(..., k=4)] call. *)
Definition draws : Type := (nat * nat * nat * nat)%type.

Definition salt_of (p : draws) : string :=
  match p with
  | (a, b, c, d) =>
      String (choice a) (String (choice b) (String (choice c) (String (choice d) EmptyString)))
  end.

(** [generate_activation_code], given what [random.choices] draws. *)
Definition generate_activation_code (SECRET_KEY : string) (p : draws)
    (type_code : string) (duration_days : Z) : M world string :=
  let prefix := "SIQIU" in
  t <- datetime_now ;;
  let timestamp := PyFormat.strftime_ymd t in
  let salt := salt_of p in
  let sign_data := (prefix ++ "-" ++ type_code ++ "-" ++ timestamp ++ "-" ++ salt)%string in
  let signature := generate_signature SECRET_KEY sign_data in
  ret (prefix ++ "-" ++ type_code ++ "-" ++ timestamp ++ "-" ++ salt ++ "-" ++ signature)%string.

(** [type_map.get(type_code.lower(), ("TRIAL", "试用版"))]. *)
Definition type_map (type_code : string) : string * string :=
  let k := PyFormat.lower type_code in
  if String.eqb k "trial" then ("TRIAL", "试用版")
  else if String.eqb k "month" then ("MONTH", "月度版")
  else if String.eqb k "year" then ("YEAR", "年度版")
  else if String.eqb k "permanent" then ("PERM", "永久版")
  else ("TRIAL", "试用版").

(** The loop of [generate_code]: [n] more codes, the next one from the
    draws numbered [i]; [acc] holds the codes made so far. *)
Fixpoint generate_loop (SECRET_KEY : string) (random : nat -> draws)
    (type_code_short type_name : string) (duration_days : Z) (notes : string)
    (n i : nat) (acc : list string) : M world (list string) :=
  match n with
  | O => ret acc
  | S k =>
      code <- generate_activation_code SECRET_KEY (random i) type_code_short duration_days ;;
      add_code code type_name duration_days notes ;;;
      generate_loop SECRET_KEY random type_code_short type_name duration_days notes
                    k (S i) (acc ++ [code])%list
  end.

(** Body of a [/api/generate] answer. *)
Record generate_result : Type := GenerateResult {
  g_success : bool;
  g_message : msg;
  g_codes : list string;
  g_type : option string;
  g_duration_days : option Z }.

(** The [/api/generate] handler.  [ADMIN_PASSWORD] is the configured
    password, [random] what the successive [random.choices] calls draw. *)
Definition generate_code (SECRET_KEY ADMIN_PASSWORD : string) (random : nat -> draws)
    (admin_password type_code : string) (duration_days : Z) (notes : string) (count : Z) :
    M world (Z * generate_result) :=
  try_except
    (if negb (String.eqb admin_password ADMIN_PASSWORD) then
       ret (401, GenerateResult false (Text "管理员密码错误") [] None None)
     else
       let tm := type_map type_code in
       codes <- generate_loop SECRET_KEY random (fst tm) (snd tm) duration_days notes
                              (Z.to_nat count) 0 [] ;;
       ret (200, GenerateResult true
                   (Text ("成功生成 " ++ PyStr.str_of_int count ++ " 个激活码")%string)
                   codes (Some (snd tm)) (Some duration_days)))
    (fun e => ret (500, GenerateResult false (Failure "生成失败: " e) [] None None)).

(** The counts of an [/api/stats] answer. *)
Record stats : Type := Stats {
  total_codes : nat;
  activated_codes : nat;
  unused_codes : Z }.

(** Body of an [/api/stats] answer. *)
Inductive stats_result : Type :=
| StatsOk (s : stats)
| StatsFailed (m : msg).

Definition count_activated (m : gmap string record) : nat :=
  size (filter (fun kr => activated (snd kr) = true) m).

(** The [/api/stats] handler: HTTP status and JSON body. *)
Definition get_stats : M world (Z * stats_result) :=
  try_except
    (d <- get_db ;;
     let total := size (codes d) in
     let act := count_activated (codes d) in
     ret (200, StatsOk (Stats total act (Z.of_nat total - Z.of_nat act))))
    (fun e => ret (500, StatsFailed (Failure "获取失败: " e))).

End PolicyAAdmin.

(** ** [cloud_server.py]: issuing and statistics *)

Module PolicyBAdmin.
Import Eff PolicyB.

(** [secrets.token_hex(4).upper()], given the four random bytes as one
    32-bit number. *)
Definition token_hex_upper (entropy : Z) : string :=
  PyStr.upper (Digest.hexdigest (Digest.bytes_of_word entropy)).

(** The type field for a number of days. *)
Definition type_code_of (days : Z) : string :=
  if days =? 0 then "P000" else String "D" (PyFormat.zfill_int 3 days).

(** The loop of [admin_generate]: [n] more codes, the next one from the
    random number [entropy i]. *)
Fixpoint generate_loop (entropy : nat -> Z) (days : Z) (prefix : string)
    (n i : nat) (db : database) (acc : list string) : M world (database * list string) :=
  match n with
  | O => ret (db, acc)
  | S k =>
      let type_code := type_code_of days in
      stamp <- now_text ;;
      let timestamp := PyFormat.ymd_of_text stamp in
      let salt := token_hex_upper (entropy i) in
      let sign_data := (prefix ++ "-" ++ type_code ++ "-" ++ timestamp ++ "-" ++ salt)%string in
      let signature := generate_signature sign_data in
      let code :=
        (prefix ++ "-" ++ type_code ++ "-" ++ timestamp ++ "-" ++ salt ++ "-" ++ signature)%string in
      created <- now_text ;;
      let r := Record_ (if days =? 0 then "永久" else "试用") code created false PyNone PyNone
                       (if 0 <? days then Some days else None) in
      generate_loop entropy days prefix k (S i)
                    (set_codes db (<[hash_code code := r]> (codes db))) (acc ++ [code])%list
  end.

(** Body and status of an [/api/admin/generate] answer. *)
Record generate_result : Type := GenerateResult {
  g_status : Z;
  g_success : bool;
  g_count : option nat;
  g_codes : list string;
  g_message : msg }.

(** The [/api/admin/generate] handler. *)
Definition admin_generate (entropy : nat -> Z) (count days : Z) (prefix : string) :
    M world generate_result :=
  try_except
    (db <- load_database ;;
     out <- generate_loop entropy days prefix (Z.to_nat count) 0 db [] ;;
     save_database (fst out) ;;;
     ret (GenerateResult 200 true (Some (List.length (snd out))) (snd out)
            (Text ("成功生成 " ++ PyStr.str_of_int (Z.of_nat (List.length (snd out)))
                     ++ " 个激活码")%string)))
    (fun e => ret (GenerateResult 500 false None [] (Failure "生成失败：" e))).

(** The share of used codes that [usage_rate] prints: the text ["0%"] for an
    empty registry, and else the quotient [used / total * 100] to one
    decimal, kept as its two terms. *)
Inductive rate : Type :=
| ZeroPercent
| Percent (used total : nat).

(** The [statistics] member of an [/api/admin/statistics] answer. *)
Record statistics : Type := Statistics {
  s_total : nat;
  s_used : nat;
  s_unused : Z;
  s_usage_rate : rate;
  s_by_type : gmap string nat }.

(** Body of an [/api/admin/statistics] answer. *)
Inductive statistics_result : Type :=
| StatisticsOk (s : statistics)
| StatisticsFailed (m : msg).

Definition count_used (m : gmap string record) : nat :=
  size (filter (fun kr => rec_used (snd kr) = true) m).

(** [by_type[type_name] = by_type.get(type_name, 0) + 1] over the entries. *)
Definition count_by_type (m : gmap string record) : gmap string nat :=
  map_fold (fun _ r acc => <[rec_type r := S (default O (acc !! rec_type r))]> acc) ∅ m.

(** The [/api/admin/statistics] handler: HTTP status and JSON body. *)
Definition admin_statistics : M world (Z * statistics_result) :=
  try_except
    (db <- load_database ;;
     let total := size (codes db) in
     let used := count_used (codes db) in
     ret (200, StatisticsOk
                 (Statistics total used (Z.of_nat total - Z.of_nat used)
                    (if (0 <? total)%nat then Percent used total else ZeroPercent)
                    (count_by_type (codes db)))))
    (fun e => ret (500, StatisticsFailed (Failure "统计失败：" e))).

End PolicyBAdmin.

(** ** Vocabulary of the statements *)

(** The signature in the specification's words: the first 16 hexadecimal
    characters, upper-cased, of HMAC-SHA256 under the secret. *)
Definition signature_spec (secret message : string) : string :=
  PyStr.take 16
    (PyStr.upper
       (Digest.hexdigest
          (Digest.hmac_sha256 (PyStr.encode secret) (PyStr.encode message)))).


Module PolicyBFacts.
Import Eff PolicyB.

(** The registry a request works on: the file's, or an empty one when the
    file cannot be loaded. *)
Definition registry (w : world) : database :=
  match disk w with
  | Some d => d
  | None => Database ∅ None "cloud_v1.0"
  end.




(** Every character is a decimal digit. *)
Fixpoint all_digits (s : string) : bool :=
  match s with
  | EmptyString => true
  | String c r => PyStr.is_digit c && all_digits r
  end.


End PolicyBFacts.

(** The number a string of decimal digits denotes, most significant first. *)
Fixpoint digits_value (s : string) (acc : Z) : Z :=
  match s with
  | EmptyString => acc
  | String c r => digits_value r (10 * acc + PyStr.digit_val c)
  end.


Module PolicyAFacts.
Import Eff PolicyA.

(** [n] days can be added to [t]: the [timedelta] exists and the sum is a
    [datetime]. *)
Definition addable (t : datetime) (n : Z) : Prop :=
  - timedelta_max_days <= n <= timedelta_max_days
  /\ 0 <= t + n * day <= datetime_max.

(** The registry after the entry of [code] was activated at [t]. *)
Definition activated_db (d : database) (code : string) (r : record) (t : datetime) : database :=
  Database (<[hash_code code := activate_record r t]> (codes d)) (logs d).

(** The world of a first use just before its second clock reading: the
    entry is activated at the first reading, the file holds the new registry
    when it could be written, and one reading was taken. *)
Definition first_use_world (w : world) (code : string) (r : record) : world :=
  let d := activated_db (db w) code r (clock w (reads w)) in
  World d (if writable w then Some d else disk w) (writable w) (clock w) (S (reads w)).

(** The world after one more reading of the clock. *)
Definition tick (w : world) : world :=
  World (db w) (disk w) (writable w) (clock w) (S (reads w)).

(** A registry of one entry, not yet activated, for [code]. *)
Definition single (code : string) (duration : Z) : database :=
  Database
    {[ hash_code code :=
         Record_ code "试用版" duration "" 63871200000000000 false None None ]} [].

End PolicyAFacts.

(** From worlds related by [R], [m] gives the same outcome and related
    worlds. *)
Definition respects {W A : Type} (R : W -> W -> Prop) (m : Eff.M W A) : Prop :=
  forall w1 w2, R w1 w2 ->
    fst (m w1) = fst (m w2) /\ R (snd (m w1)) (snd (m w2)).


(** Two fixed worlds that load the same registry. *)
Definition same_registry (wa wb w1 w2 : PolicyB.world) : Prop :=
  w1 = wa /\ w2 = wb /\ PolicyBFacts.registry wa = PolicyBFacts.registry wb.

(** ** Worked inputs *)

(** A seven-day code of the cloud server, signed under its secret. *)
Definition trial_code : string := "SIQIU-D007-20250101-AB12CD34-D8B267F97AE23D70".




(** A world of the cloud server with no registry file. *)
Definition fresh_cloud : PolicyB.world :=
  PolicyB.World None true
    (fun n => if Nat.eqb n 0 then "2025-01-01 08:00:00" else "2025-06-01 12:00:00") 0.

(** A registry in which the seven-day code was used on the first of January
    by 10.0.0.1. *)
Definition used_cloud : PolicyB.world :=
  PolicyB.World
    (Some (PolicyB.Database
             {[ PolicyB.hash_code trial_code :=
                  PolicyB.Record_ "试用" trial_code "2024-12-31 09:00:00" true
                    (PolicyB.Str "2025-01-01 08:00:00") (PolicyB.Str "10.0.0.1") (Some 7) ]}
             None "cloud_v1.0"))
    true (fun _ => "2025-06-01 12:00:00") 0.

(** A code that bears a matching signature under the default secret. *)
Definition demo_code : string := "SIQIU-TRIAL-250101-AB12-185D7F7271AD6BFF".

(** 2025-01-01T00:00:00. *)
Definition new_year : Z := 63871286400000000.

(** The clock reads midnight, then 250 microseconds later, then one second
    after midnight and from then on one day after midnight. *)
Definition demo_clock (n : nat) : Z :=
  match n with
  | 0%nat => new_year
  | 1%nat => new_year + 250
  | 2%nat => new_year + 1000000
  | _ => new_year + PolicyA.day
  end.

(** A server whose registry holds [demo_code], not yet activated, with the
    given duration. *)
Definition demo_server (duration : Z) (can_write : bool) : PolicyA.world :=
  PolicyA.World (PolicyAFacts.single demo_code duration)
                (Some (PolicyAFacts.single demo_code duration)) can_write demo_clock 0.

(** A server on which [demo_code], of duration 0, was activated at midnight;
    the clock now reads one second later. *)
Definition zero_used_server : PolicyA.world :=
  PolicyA.World
    (PolicyAFacts.activated_db (PolicyAFacts.single demo_code 0) demo_code
       (PolicyA.Record_ demo_code "试用版" 0 "" 63871200000000000 false None None) new_year)
    None true demo_clock 2.

(** A server on which [demo_code], of seven days, was activated at midnight;
    the clock now reads one second later. *)
Definition week_used_server : PolicyA.world :=
  PolicyA.World
    (PolicyAFacts.activated_db (PolicyAFacts.single demo_code 7) demo_code
       (PolicyA.Record_ demo_code "试用版" 7 "" 63871200000000000 false None None) new_year)
    None true demo_clock 2.

(** ** Vocabulary of the further statements *)

(** The number of dashes in a text. *)
Fixpoint dashes (s : string) : nat :=
  match s with
  | EmptyString => O
  | String c r => if Ascii.eqb c "-" then S (dashes r) else dashes r
  end.

(** A character that normalization keeps and that does not separate fields:
    no lower-case letter, no white space, no dash. *)
Definition plain_char (c : ascii) : bool :=
  let n := PyStr.code_of c in
  negb ((97 <=? n) && (n <=? 122)) && negb (PyStr.is_space c) && negb (Ascii.eqb c "-").

Fixpoint plain (s : string) : bool :=
  match s with
  | EmptyString => true
  | String c r => plain_char c && plain r
  end.

(** A text with no white space and no lower-case letter is its own
    normalization; dashes do no harm. *)
Fixpoint normal (s : string) : bool :=
  match s with
  | EmptyString => true
  | String c r => (plain_char c || Ascii.eqb c "-") && normal r
  end.

(** A code put together from four fields and the signature of their join. *)
Definition signed_code (sign : string -> string) (prefix type_code timestamp salt : string) :
    string :=
  prefix ++ "-" ++ type_code ++ "-" ++ timestamp ++ "-" ++ salt ++ "-"
    ++ sign (prefix ++ "-" ++ type_code ++ "-" ++ timestamp ++ "-" ++ salt).

(** Every byte is below 256 and not negative. *)
Definition bytes_ok (bs : list Z) : Prop := Forall (fun b => 0 <= b < 256) bs.



(** The entry of [code] in the registry in memory is present, not activated,
    of the given type and duration. *)
Definition registered_fresh (m : gmap string PolicyA.record) (code type_name : string)
    (duration : Z) : Prop :=
  exists r, m !! PolicyA.hash_code code = Some r
            /\ PolicyA.activated r = false
            /\ PolicyA.rec_type r = type_name
            /\ PolicyA.duration_days r = duration.

(** The entry of [code] in a registry of the cloud server is present and
    not used. *)
Definition registered_unused (m : gmap string PolicyB.record) (code : string) : Prop :=
  exists r, m !! PolicyB.hash_code code = Some r /\ PolicyB.rec_used r = false.

(** The sum of the counts of a table. *)
Definition sum_counts (m : gmap string nat) : nat :=
  map_fold (fun _ n acc => (n + acc)%nat) O m.

(** ** Further worked inputs *)



(** * Properties *)

(** Known answers of the digest functions. *)

Example sha256_abc :
  Digest.hexdigest (Digest.sha256 (PyStr.encode "abc"))
  = "ba7816bf8f01cfea414140de5dae2223b00361a396177a9cb410ff61f20015ad".
Proof. vm_compute. reflexivity. Qed.

Example sha256_empty :
  Digest.hexdigest (Digest.sha256 [])
  = "e3b0c44298fc1c149afbf4c8996fb92427ae41e4649b934ca495991b7852b855".
Proof. vm_compute. reflexivity. Qed.

Example hmac_sha256_rfc4231_case2 :
  Digest.hexdigest
    (Digest.hmac_sha256 (PyStr.encode "Jefe") (PyStr.encode "what do ya want for nothing?"))
  = "5bdcc146bf60754e6a042426089575c75a003f089d2739839dec58b964ec3843".
Proof. vm_compute. reflexivity. Qed.

Example hmac_sha256_long_key :
  Digest.hexdigest (Digest.hmac_sha256 (repeat 107 100) (PyStr.encode "msg"))
  = "bd56a1782c2830e8abc6ed866a57a1230661e650b84c62f7ee3accc5fa5af491".
Proof. vm_compute. reflexivity. Qed.

(** ** The signature *)

Lemma length_upper (s : string) : String.length (PyStr.upper s) = String.length s.
Proof. induction s as [|c r IH]; simpl; [reflexivity | now rewrite IH]. Qed.

Lemma length_take (n : nat) (s : string) :
  (n <= String.length s)%nat -> String.length (PyStr.take n s) = n.
Proof.
  revert s; induction n as [|k IH]; intros s Hle.
  - now destruct s.
  - destruct s as [|c r]; simpl in *; [lia | rewrite IH; lia].
Qed.

Lemma upper_take (n : nat) (s : string) :
  PyStr.upper (PyStr.take n s) = PyStr.take n (PyStr.upper s).
Proof.
  revert s; induction n as [|k IH]; intros s.
  - now destruct s.
  - destruct s as [|c r]; simpl; [reflexivity | now rewrite IH].
Qed.

Lemma length_hexdigest (bs : list Z) :
  String.length (Digest.hexdigest bs) = (2 * List.length bs)%nat.
Proof. induction bs as [|b r IH]; simpl; [reflexivity | rewrite IH; lia]. Qed.

Lemma length_sha256 (m : list Z) : List.length (Digest.sha256 m) = 32%nat.
Proof.
  unfold Digest.sha256.
  generalize (fold_left Digest.compress
                (Digest.blocks (List.length (Digest.pad m)) (Digest.pad m))
                Digest.initial_regs).
  intros r; reflexivity.
Qed.

Lemma length_hmac_sha256 (key m : list Z) :
  List.length (Digest.hmac_sha256 key m) = 32%nat.
Proof. unfold Digest.hmac_sha256; apply length_sha256. Qed.

(** C7. For every secret and message the signature is the first 16
    hexadecimal characters, upper-cased, of HMAC-SHA256(key = secret,
    msg = message), in both servers; it is 16 characters long whatever the
    lengths of its inputs; and for secret K and message
    SIQIU-D007-250101-AB12 it is the 16 leading characters of that HMAC. *)
Theorem generate_signature_truncated_hmac (secret message : string) :
  PolicyA.generate_signature secret message = signature_spec secret message
  /\ PolicyB.generate_signature message = signature_spec PolicyB.SECRET_KEY message
  /\ String.length (PolicyA.generate_signature secret message) = 16%nat
  /\ String.length (PolicyB.generate_signature message) = 16%nat
  /\ PolicyA.generate_signature "K" "SIQIU-D007-250101-AB12" = "4297C66985A06F81"
  /\ PyStr.take 16
       (Digest.hexdigest
          (Digest.hmac_sha256 (PyStr.encode "K") (PyStr.encode "SIQIU-D007-250101-AB12")))
     = "4297c66985a06f81".
Proof.
  assert (Hlen : forall k m,
             String.length
               (PyStr.upper
                  (PyStr.take 16 (Digest.hexdigest (Digest.hmac_sha256 k m)))) = 16%nat).
  { intros k m. rewrite length_upper, length_take; [reflexivity|].
    rewrite length_hexdigest, length_hmac_sha256. lia. }
  refine (conj _ (conj _ (conj _ (conj _ (conj _ _))))).
  - unfold PolicyA.generate_signature, signature_spec. apply upper_take.
  - unfold PolicyB.generate_signature, signature_spec. apply upper_take.
  - apply Hlen.
  - apply Hlen.
  - vm_compute. reflexivity.
  - vm_compute. reflexivity.
Qed.

(** ** Malformed codes *)




(** ** Policy B: what [verify_code] answers on an authentic code *)

Lemma load_database_registry (w : PolicyB.world) :
  PolicyB.load_database w = (Eff.Return (PolicyBFacts.registry w), w).
Proof.
  unfold PolicyB.load_database, PolicyBFacts.registry.
  destruct (PolicyB.disk w); reflexivity.
Qed.

Lemma split_five_truthy (code a b c d e : string) :
  PyStr.split "-" code = [a; b; c; d; e] -> PyStr.truthy code = true.
Proof. destruct code; [discriminate | reflexivity]. Qed.


(** ** Policy B: what [activate_code] does *)

(** Activation of a code that has an entry: the entry is marked used with the
    time read now and the caller's address, and the registry is saved. *)
Lemma activate_code_registered (raw addr : string) (w : PolicyB.world) (r : PolicyB.record) :
  let code := PyStr.upper (PyStr.strip raw) in
  PyStr.truthy code = true ->
  PolicyB.codes (PolicyBFacts.registry w) !! PolicyB.hash_code code = Some r ->
  PolicyB.writable w = true ->
  PolicyB.activate_code raw addr w
  = (Eff.Return (PolicyB.ActivateResult 200 true (Eff.Text "激活码已标记为使用")),
     PolicyB.World
       (Some (PolicyB.set_codes (PolicyBFacts.registry w)
                (<[PolicyB.hash_code code :=
                     PolicyB.mark_used r (PolicyB.clock w (PolicyB.reads w)) addr]>
                   (PolicyB.codes (PolicyBFacts.registry w)))))
       true (PolicyB.clock w) (S (PolicyB.reads w))).
Proof.
  intros code Htruthy Hlook Hw.
  unfold PolicyB.activate_code, Eff.try_except. fold code.
  rewrite Htruthy. cbn [negb].
  unfold Eff.bind at 1. rewrite load_database_registry.
  rewrite Hlook. unfold Eff.bind, Eff.ret. rewrite Hlook.
  unfold PolicyB.now_text, PolicyB.save_database. cbn. rewrite Hw. reflexivity.
Qed.



(** ** [int] on strings of decimal digits *)




Example int_007 : PyStr.int "007" = Some 7.
Proof. reflexivity. Qed.

Example int_plus_7 : PyStr.int "+7" = Some 7.
Proof. reflexivity. Qed.

Example int_underscore : PyStr.int " 1_0 " = Some 10.
Proof. reflexivity. Qed.

Example int_letters : PyStr.int "XYZ" = None.
Proof. reflexivity. Qed.

Example int_separator_28 : PyStr.int (String (ascii_of_nat 28) "7") = None.
Proof. reflexivity. Qed.

(** ** Policy B: verification of a code the registry has never seen *)





(** ** Policy B: type fields that do not decode *)




(** ** Policy B: activating a code that is already used *)

(** C6, as the code has it.  Activating a code whose entry already says used
    does not fail when the file can be written: it answers success, keeps
    [used] set and every other member of the entry and every other entry,
    and replaces [used_at] by the time read now and [used_by] by the address
    of the present caller. *)
Theorem reactivation_overwrites_use (raw addr : string) (w : PolicyB.world)
    (r : PolicyB.record) :
  let code := PyStr.upper (PyStr.strip raw) in
  PyStr.truthy code = true ->
  PolicyB.codes (PolicyBFacts.registry w) !! PolicyB.hash_code code = Some r ->
  PolicyB.rec_used r = true ->
  PolicyB.writable w = true ->
  exists w1 d1,
    PolicyB.activate_code raw addr w
    = (Eff.Return (PolicyB.ActivateResult 200 true (Eff.Text "激活码已标记为使用")), w1)
    /\ PolicyB.disk w1 = Some d1
    /\ PolicyB.codes d1 !! PolicyB.hash_code code
       = Some (PolicyB.Record_ (PolicyB.rec_type r) (PolicyB.rec_code r)
                 (PolicyB.rec_created_at r) true
                 (PolicyB.Str (PolicyB.clock w (PolicyB.reads w)))
                 (PolicyB.Str addr) (PolicyB.rec_days r))
    /\ (forall k, k <> PolicyB.hash_code code ->
                  PolicyB.codes d1 !! k = PolicyB.codes (PolicyBFacts.registry w) !! k).
Proof.
  intros code Htruthy Hlook Hused Hw.
  eexists _, _. split; [|split; [|split]].
  - apply (activate_code_registered raw addr w r Htruthy Hlook Hw).
  - reflexivity.
  - cbn [PolicyB.set_codes PolicyB.codes]. rewrite lookup_insert_eq. reflexivity.
  - intros k Hk. cbn [PolicyB.set_codes PolicyB.codes].
    apply lookup_insert_ne. intros E. apply Hk. symmetry. exact E.
Qed.

(** The theorem at [used_cloud] and a second caller. *)
Lemma reactivation_overwrites_use_witness :
  exists w1 d1,
    PolicyB.activate_code trial_code "10.0.0.2" used_cloud
    = (Eff.Return (PolicyB.ActivateResult 200 true (Eff.Text "激活码已标记为使用")), w1)
    /\ PolicyB.disk w1 = Some d1
    /\ PolicyB.codes d1 !! PolicyB.hash_code trial_code
       = Some (PolicyB.Record_ "试用" trial_code "2024-12-31 09:00:00" true
                 (PolicyB.Str "2025-06-01 12:00:00") (PolicyB.Str "10.0.0.2") (Some 7))
    /\ (forall k, k <> PolicyB.hash_code trial_code ->
                  PolicyB.codes d1 !! k = PolicyB.codes (PolicyBFacts.registry used_cloud) !! k).
Proof.
  apply (reactivation_overwrites_use trial_code "10.0.0.2" used_cloud
           (PolicyB.Record_ "试用" trial_code "2024-12-31 09:00:00" true
              (PolicyB.Str "2025-01-01 08:00:00") (PolicyB.Str "10.0.0.1") (Some 7))).
  - reflexivity.
  - vm_compute. reflexivity.
  - reflexivity.
  - reflexivity.
Defined.

(** C6 as stated fails: a second activation, by another caller at a later
    time, succeeds and replaces the recorded time and caller of the first. *)
Lemma reactivation_loses_first_use :
  PolicyB.codes (PolicyBFacts.registry used_cloud) !! PolicyB.hash_code trial_code
  = Some (PolicyB.Record_ "试用" trial_code "2024-12-31 09:00:00" true
            (PolicyB.Str "2025-01-01 08:00:00") (PolicyB.Str "10.0.0.1") (Some 7))
  /\ fst (PolicyB.activate_code trial_code "10.0.0.2" used_cloud)
     = Eff.Return (PolicyB.ActivateResult 200 true (Eff.Text "激活码已标记为使用"))
  /\ PolicyB.codes (PolicyBFacts.registry
                      (snd (PolicyB.activate_code trial_code "10.0.0.2" used_cloud)))
       !! PolicyB.hash_code trial_code
     = Some (PolicyB.Record_ "试用" trial_code "2024-12-31 09:00:00" true
               (PolicyB.Str "2025-06-01 12:00:00") (PolicyB.Str "10.0.0.2") (Some 7)).
Proof.
  refine (conj _ (conj _ _)); vm_compute; reflexivity.
Qed.

(** ** Policy A: the two branches of [verify_code] *)

Lemma add_days_addable {W : Type} (t n : Z) (w : W) :
  PolicyAFacts.addable t n ->
  PolicyA.add_days t n w = (Eff.Return (t + n * PolicyA.day), w).
Proof.
  intros [[Hlo Hhi] [Hlo' Hhi']]. unfold PolicyA.add_days.
  replace (n <? - PolicyA.timedelta_max_days) with false by (symmetry; apply Z.ltb_ge; lia).
  replace (PolicyA.timedelta_max_days <? n) with false by (symmetry; apply Z.ltb_ge; lia).
  cbn [orb].
  replace (t + n * PolicyA.day <? 0) with false by (symmetry; apply Z.ltb_ge; lia).
  replace (PolicyA.datetime_max <? t + n * PolicyA.day) with false
    by (symmetry; apply Z.ltb_ge; lia).
  reflexivity.
Qed.

(** First use.  The entry is activated at the first clock reading [t1] and
    the registry saved; the expiry reported is counted from the second
    reading [t2], taken after the save. *)
Lemma verify_code_first_use (code : string) (w : PolicyA.world) (r : PolicyA.record) :
  PolicyA.codes (PolicyA.db w) !! PolicyA.hash_code code = Some r ->
  PolicyA.activated r = false ->
  PolicyAFacts.addable (PolicyA.clock w (S (PolicyA.reads w))) (PolicyA.duration_days r) ->
  PolicyA.verify_code code w
  = (Eff.Return
       (PolicyA.VerifyResult true (PolicyA.activated_message r) (Some (PolicyA.rec_type r))
          (Some (PolicyA.clock w (PolicyA.reads w)))
          (Some (PolicyA.clock w (S (PolicyA.reads w))
                 + PolicyA.duration_days r * PolicyA.day))),
     PolicyAFacts.tick (PolicyAFacts.first_use_world w code r)).
Proof.
  intros Hlook Hact Hadd.
  unfold PolicyA.verify_code, Eff.bind, PolicyA.get_db.
  rewrite Hlook, Hact.
  unfold PolicyA.datetime_now, PolicyA.put_db, PolicyA.save_database.
  cbn [PolicyA.db PolicyA.disk PolicyA.writable PolicyA.clock PolicyA.reads].
  destruct (PolicyA.writable w) eqn:Hw;
    cbn [PolicyA.db PolicyA.disk PolicyA.writable PolicyA.clock PolicyA.reads];
    rewrite (add_days_addable _ _ _ Hadd);
    unfold PolicyAFacts.tick, PolicyAFacts.first_use_world, PolicyAFacts.activated_db;
    rewrite Hw; reflexivity.
Qed.

(** Later verifications.  The expiry is counted from the stored activation
    time; the answer is valid until the clock passes it, and nothing but the
    clock moves. *)
Lemma verify_code_again (code : string) (w : PolicyA.world) (r : PolicyA.record) (t0 : Z) :
  PolicyA.codes (PolicyA.db w) !! PolicyA.hash_code code = Some r ->
  PolicyA.activated r = true ->
  PolicyA.activated_at r = Some t0 ->
  PolicyAFacts.addable t0 (PolicyA.duration_days r) ->
  PolicyA.verify_code code w
  = (Eff.Return
       (if t0 + PolicyA.duration_days r * PolicyA.day <? PolicyA.clock w (PolicyA.reads w)
        then PolicyA.VerifyResult false (Eff.Text "激活码已过期")
               (Some (PolicyA.rec_type r)) None None
        else PolicyA.VerifyResult true (Eff.Text "激活码有效")
               (Some (PolicyA.rec_type r)) (Some t0)
               (Some (t0 + PolicyA.duration_days r * PolicyA.day))),
     PolicyAFacts.tick w).
Proof.
  intros Hlook Hact Hat Hadd.
  unfold PolicyA.verify_code, Eff.bind, PolicyA.get_db.
  rewrite Hlook, Hact, Hat. unfold PolicyA.fromisoformat, Eff.ret.
  rewrite (add_days_addable _ _ _ Hadd).
  unfold PolicyA.datetime_now, PolicyAFacts.tick.
  destruct (t0 + PolicyA.duration_days r * PolicyA.day <? PolicyA.clock w (PolicyA.reads w));
    reflexivity.
Qed.

(** ** Policy A: duration zero, and the expiry reported on first use *)

(** C3, as the code has it.  A duration of zero days is no sentinel: for an
    entry of duration 0 activated at [t0], a verification answers valid only
    while the clock has not passed [t0], and then with the finite expiry
    [t0]; at every later reading it answers invalid, expired.  Nothing but
    the clock moves. *)
Theorem zero_duration_expires (code : string) (w : PolicyA.world) (r : PolicyA.record)
    (t0 : Z) :
  PolicyA.codes (PolicyA.db w) !! PolicyA.hash_code code = Some r ->
  PolicyA.activated r = true ->
  PolicyA.activated_at r = Some t0 ->
  PolicyA.duration_days r = 0 ->
  0 <= t0 <= PolicyA.datetime_max ->
  (t0 < PolicyA.clock w (PolicyA.reads w) ->
   PolicyA.verify_code code w
   = (Eff.Return (PolicyA.VerifyResult false (Eff.Text "激活码已过期")
                    (Some (PolicyA.rec_type r)) None None),
      PolicyAFacts.tick w))
  /\ (PolicyA.clock w (PolicyA.reads w) <= t0 ->
      PolicyA.verify_code code w
      = (Eff.Return (PolicyA.VerifyResult true (Eff.Text "激活码有效")
                       (Some (PolicyA.rec_type r)) (Some t0) (Some t0)),
         PolicyAFacts.tick w)).
Proof.
  intros Hlook Hact Hat Hzero Hrange.
  assert (Hadd : PolicyAFacts.addable t0 (PolicyA.duration_days r)).
  { rewrite Hzero. unfold PolicyAFacts.addable, PolicyA.timedelta_max_days. lia. }
  pose proof (verify_code_again code w r t0 Hlook Hact Hat Hadd) as Hv.
  rewrite Hzero in Hv. replace (t0 + 0 * PolicyA.day) with t0 in Hv by lia.
  split; intros Hnow; rewrite Hv.
  - replace (t0 <? PolicyA.clock w (PolicyA.reads w)) with true
      by (symmetry; apply Z.ltb_lt; exact Hnow).
    reflexivity.
  - replace (t0 <? PolicyA.clock w (PolicyA.reads w)) with false
      by (symmetry; apply Z.ltb_ge; exact Hnow).
    reflexivity.
Qed.

(** The theorem at [zero_used_server]: one second after the activation the
    code has expired. *)
Lemma zero_duration_expires_witness :
  PolicyA.verify_code demo_code zero_used_server
  = (Eff.Return (PolicyA.VerifyResult false (Eff.Text "激活码已过期")
                   (Some "试用版") None None),
     PolicyAFacts.tick zero_used_server).
Proof.
  refine (proj1 (zero_duration_expires demo_code zero_used_server
                   (PolicyA.Record_ demo_code "试用版" 0 "" 63871200000000000 true
                      (Some new_year) None)
                   new_year _ _ _ _ _) _).
  - vm_compute. reflexivity.
  - reflexivity.
  - reflexivity.
  - reflexivity.
  - vm_compute. split; discriminate.
  - vm_compute. reflexivity.
Defined.

(** C3 as stated fails: a code of duration 0 is activated by its first
    verification, which reports a finite expiry, and a verification one
    second later finds it expired. *)
Lemma zero_duration_code_expires :
  PolicyA.duration_days <$>
    (PolicyA.codes (PolicyA.db (demo_server 0 true)) !! PolicyA.hash_code demo_code)
  = Some 0
  /\ fst (PolicyA.verify_code demo_code (demo_server 0 true))
     = Eff.Return (PolicyA.VerifyResult true (Eff.Text "激活成功！(试用版, 有效期0天)")
                     (Some "试用版") (Some new_year) (Some (new_year + 250)))
  /\ fst (PolicyA.verify_code demo_code
            (snd (PolicyA.verify_code demo_code (demo_server 0 true))))
     = Eff.Return (PolicyA.VerifyResult false (Eff.Text "激活码已过期")
                     (Some "试用版") None None).
Proof.
  refine (conj _ (conj _ _)); vm_compute; reflexivity.
Qed.

(** C1 at a seven-day code: the first verification stores midnight as the
    activation time and reports an expiry seven days after the later
    reading, not seven days after the activation time it stored. *)
Lemma first_use_expiry_from_second_reading :
  fst (PolicyA.verify_code demo_code (demo_server 7 true))
  = Eff.Return (PolicyA.VerifyResult true (Eff.Text "激活成功！(试用版, 有效期7天)")
                  (Some "试用版") (Some new_year)
                  (Some (new_year + 250 + 7 * PolicyA.day)))
  /\ PolicyA.activated_at <$>
       (PolicyA.codes (PolicyA.db (snd (PolicyA.verify_code demo_code (demo_server 7 true))))
          !! PolicyA.hash_code demo_code)
     = Some (Some new_year)
  /\ new_year + 250 + 7 * PolicyA.day <> new_year + 7 * PolicyA.day.
Proof.
  refine (conj _ (conj _ _)); vm_compute; [reflexivity | reflexivity | discriminate].
Qed.

(** C4 at the same code: the verification that follows, inside the window,
    reports seven days after the stored activation time, which is not the
    expiry that the first verification reported. *)
Lemma second_verification_reports_other_expiry :
  PolicyA.expire_at <$>
    match fst (PolicyA.verify_code demo_code (demo_server 7 true)) with
    | Eff.Return r => Some r
    | Eff.Raise _ => None
    end
  = Some (Some (new_year + 250 + 7 * PolicyA.day))
  /\ fst (PolicyA.verify_code demo_code
            (snd (PolicyA.verify_code demo_code (demo_server 7 true))))
     = Eff.Return (PolicyA.VerifyResult true (Eff.Text "激活码有效")
                     (Some "试用版") (Some new_year) (Some (new_year + 7 * PolicyA.day))).
Proof.
  refine (conj _ _); vm_compute; reflexivity.
Qed.

(** ** Computations that cannot tell two worlds apart *)

Section Respects.

Context {W : Type} (R : W -> W -> Prop).

Lemma respects_ret {A : Type} (a : A) : respects R (Eff.ret a).
Proof. intros w1 w2 H. split; [reflexivity | exact H]. Qed.

Lemma respects_raise {A : Type} (e : Eff.exn) : respects R (@Eff.raise W A e).
Proof. intros w1 w2 H. split; [reflexivity | exact H]. Qed.

Lemma respects_bind {A B : Type} (m : Eff.M W A) (k : A -> Eff.M W B) :
  respects R m -> (forall a, respects R (k a)) -> respects R (Eff.bind m k).
Proof.
  intros Hm Hk w1 w2 H. unfold Eff.bind.
  destruct (Hm w1 w2 H) as [Ho Hw].
  destruct (m w1) as [o1 w1'], (m w2) as [o2 w2']. cbn in Ho, Hw. subst o2.
  destruct o1 as [a|e]; [apply (Hk a); exact Hw | split; [reflexivity | exact Hw]].
Qed.

Lemma respects_try_except {A : Type} (body : Eff.M W A) (handler : Eff.exn -> Eff.M W A) :
  respects R body -> (forall e, respects R (handler e)) ->
  respects R (Eff.try_except body handler).
Proof.
  intros Hb Hh w1 w2 H. unfold Eff.try_except.
  destruct (Hb w1 w2 H) as [Ho Hw].
  destruct (body w1) as [o1 w1'], (body w2) as [o2 w2']. cbn in Ho, Hw. subst o2.
  destruct o1 as [a|e]; [split; [reflexivity | exact Hw] | apply (Hh e); exact Hw].
Qed.

End Respects.

(** ** Policy A: a registry file that cannot be written *)









(** ** Policy B: verification only reads the registry *)

Lemma same_registry_load_database wa wb :
  respects (same_registry wa wb) PolicyB.load_database.
Proof.
  intros w1 w2 (-> & -> & Hreg). rewrite !load_database_registry.
  split; [cbn; now rewrite Hreg | repeat split; assumption].
Qed.

Lemma same_registry_verify_code wa wb raw :
  respects (same_registry wa wb) (PolicyB.verify_code raw).
Proof.
  unfold PolicyB.verify_code.
  apply respects_try_except; [|intros e; apply respects_ret].
  destruct (negb _); [apply respects_ret|].
  destruct (negb _); [apply respects_ret|].
  destruct (PyStr.split "-" _) as [|p [|t [|ts [|salt [|sig [|x rest]]]]]];
    try apply respects_raise.
  destruct (negb _); [apply respects_ret|].
  apply respects_bind; [apply same_registry_load_database|]. intros d.
  destruct (PolicyB.codes d !! _) as [r|]; [destruct (PolicyB.rec_used r)|];
    try apply respects_ret;
    (destruct (String.eqb t "P000"); [apply respects_ret|];
     destruct (PyStr.startswith "D" t); [|apply respects_ret];
     destruct (PyStr.int _); [apply respects_ret | apply respects_raise]).
Qed.

Lemma verify_code_reads_registry_only (raw : string) (wa wb : PolicyB.world) :
  PolicyBFacts.registry wa = PolicyBFacts.registry wb ->
  fst (PolicyB.verify_code raw wa) = fst (PolicyB.verify_code raw wb)
  /\ snd (PolicyB.verify_code raw wa) = wa.
Proof.
  intros Hreg.
  destruct (same_registry_verify_code wa wb raw wa wb) as [Ho (Hs & _)].
  - repeat split; assumption.
  - split; assumption.
Qed.

(** ** Failures of the registry file *)




(** ** Policy A: first use and later verifications, in general *)

(** X1.  The first verification of a registered code that is not yet
    activated (with a duration that can be added to the clock's second
    reading) activates the entry at the first reading, leaves every other
    entry alone, saves the registry when the file can be written, and answers
    valid with that activation time. *)
Theorem first_verification_activates (code : string) (w : PolicyA.world)
    (r : PolicyA.record) :
  PolicyA.codes (PolicyA.db w) !! PolicyA.hash_code code = Some r ->
  PolicyA.activated r = false ->
  PolicyAFacts.addable (PolicyA.clock w (S (PolicyA.reads w))) (PolicyA.duration_days r) ->
  exists res w',
    PolicyA.verify_code code w = (Eff.Return res, w')
    /\ PolicyA.valid res = true
    /\ PolicyA.res_activated_at res = Some (PolicyA.clock w (PolicyA.reads w))
    /\ PolicyA.codes (PolicyA.db w') !! PolicyA.hash_code code
       = Some (PolicyA.activate_record r (PolicyA.clock w (PolicyA.reads w)))
    /\ (forall k, k <> PolicyA.hash_code code ->
                  PolicyA.codes (PolicyA.db w') !! k = PolicyA.codes (PolicyA.db w) !! k)
    /\ (PolicyA.writable w = true -> PolicyA.disk w' = Some (PolicyA.db w')).
Proof.
  intros Hlook Hact Hadd.
  eexists _, _. split; [apply (verify_code_first_use code w r Hlook Hact Hadd)|].
  cbn. repeat split.
  - apply lookup_insert_eq.
  - intros k Hk. apply lookup_insert_ne. intros E. apply Hk. symmetry. exact E.
  - intros ->. reflexivity.
Qed.

(** The theorem at the seven-day code of the demonstration server. *)
Lemma first_verification_activates_witness :
  exists res w',
    PolicyA.verify_code demo_code (demo_server 7 true) = (Eff.Return res, w')
    /\ PolicyA.valid res = true
    /\ PolicyA.res_activated_at res = Some new_year
    /\ PolicyA.codes (PolicyA.db w') !! PolicyA.hash_code demo_code
       = Some (PolicyA.Record_ demo_code "试用版" 7 "" 63871200000000000 true
                 (Some new_year) None)
    /\ (forall k, k <> PolicyA.hash_code demo_code ->
                  PolicyA.codes (PolicyA.db w') !! k
                  = PolicyA.codes (PolicyA.db (demo_server 7 true)) !! k)
    /\ (PolicyA.writable (demo_server 7 true) = true -> PolicyA.disk w' = Some (PolicyA.db w')).
Proof.
  apply (first_verification_activates demo_code (demo_server 7 true)
           (PolicyA.Record_ demo_code "试用版" 7 "" 63871200000000000 false None None)).
  - vm_compute. reflexivity.
  - reflexivity.
  - vm_compute. repeat split; discriminate.
Defined.

(** X2.  Every verification of an activated code inside its window (the clock
    has not passed the stored activation time plus the duration) answers
    valid with that same expiry, and moves nothing but the clock: neither
    the registry in memory nor the file changes, so the next verification
    starts from the same entry. *)
Theorem reverification_keeps_expiry (code : string) (w : PolicyA.world)
    (r : PolicyA.record) (t0 : Z) :
  PolicyA.codes (PolicyA.db w) !! PolicyA.hash_code code = Some r ->
  PolicyA.activated r = true ->
  PolicyA.activated_at r = Some t0 ->
  PolicyAFacts.addable t0 (PolicyA.duration_days r) ->
  PolicyA.clock w (PolicyA.reads w) <= t0 + PolicyA.duration_days r * PolicyA.day ->
  exists w',
    PolicyA.verify_code code w
    = (Eff.Return (PolicyA.VerifyResult true (Eff.Text "激活码有效")
                     (Some (PolicyA.rec_type r)) (Some t0)
                     (Some (t0 + PolicyA.duration_days r * PolicyA.day))), w')
    /\ PolicyA.db w' = PolicyA.db w
    /\ PolicyA.disk w' = PolicyA.disk w
    /\ PolicyA.reads w' = S (PolicyA.reads w).
Proof.
  intros Hlook Hact Hat Hadd Hnow.
  exists (PolicyAFacts.tick w). split; [|repeat split].
  rewrite (verify_code_again code w r t0 Hlook Hact Hat Hadd).
  replace (t0 + PolicyA.duration_days r * PolicyA.day <? PolicyA.clock w (PolicyA.reads w))
    with false by (symmetry; apply Z.ltb_ge; exact Hnow).
  reflexivity.
Qed.

(** The theorem at [week_used_server]. *)
Lemma reverification_keeps_expiry_witness :
  exists w',
    PolicyA.verify_code demo_code week_used_server
    = (Eff.Return (PolicyA.VerifyResult true (Eff.Text "激活码有效")
                     (Some "试用版") (Some new_year)
                     (Some (new_year + 7 * PolicyA.day))), w')
    /\ PolicyA.db w' = PolicyA.db week_used_server
    /\ PolicyA.disk w' = PolicyA.disk week_used_server
    /\ PolicyA.reads w' = S (PolicyA.reads week_used_server).
Proof.
  apply (reverification_keeps_expiry demo_code week_used_server
           (PolicyA.Record_ demo_code "试用版" 7 "" 63871200000000000 true (Some new_year) None)
           new_year).
  - vm_compute. reflexivity.
  - reflexivity.
  - reflexivity.
  - vm_compute. repeat split; discriminate.
  - vm_compute. discriminate.
Defined.

(** A duration that no [timedelta] holds: the handler answers 500 after the
    entry has been activated and saved. *)
Example first_use_overflow_after_save :
  fst (PolicyA.verify_activation PolicyA.default_secret_key demo_code
         (demo_server 10000000000 true))
  = Eff.Return (500, PolicyA.refuse (Eff.Failure "服务器错误: " Eff.OverflowError))
  /\ PolicyA.activated <$>
       (PolicyA.codes (PolicyA.db (snd (PolicyA.verify_activation PolicyA.default_secret_key
                                          demo_code (demo_server 10000000000 true))))
          !! PolicyA.hash_code demo_code)
     = Some true.
Proof. split; vm_compute; reflexivity. Qed.

(** ** Policy B: verification is read-only *)

(** X3.  Under policy B a verification, whatever it answers, leaves the
    registry file, the write permission and the clock as they were. *)
Theorem verify_code_is_read_only (raw : string) (w : PolicyB.world) :
  snd (PolicyB.verify_code raw w) = w.
Proof. apply (verify_code_reads_registry_only raw w w). reflexivity. Qed.

(** * Further properties *)

(** ** Texts: dashes, fields, normalization *)

Lemma split_length (s : string) :
  List.length (PyStr.split "-" s) = S (dashes s).
Proof.
  induction s as [|c r IH]; [reflexivity|].
  cbn [PyStr.split dashes]. destruct (Ascii.eqb c "-").
  - cbn. now rewrite IH.
  - destruct (PyStr.split "-" r) as [|h t]; [discriminate IH | exact IH].
Qed.

Lemma dashes_app (a b : string) : dashes (a ++ b) = (dashes a + dashes b)%nat.
Proof.
  induction a as [|c r IH]; [reflexivity|].
  change (String c r ++ b)%string with (String c (r ++ b)).
  cbn [dashes]. destruct (Ascii.eqb c "-"); rewrite IH; reflexivity.
Qed.

Lemma upper_char_dash (c : ascii) :
  Ascii.eqb (PyStr.upper_char c) "-" = Ascii.eqb c "-".
Proof. destruct c as [[] [] [] [] [] [] [] []]; reflexivity. Qed.

Lemma dashes_upper (s : string) : dashes (PyStr.upper s) = dashes s.
Proof.
  induction s as [|c r IH]; [reflexivity|].
  cbn. rewrite upper_char_dash, IH. reflexivity.
Qed.

Lemma space_not_dash (c : ascii) : PyStr.is_space c = true -> Ascii.eqb c "-" = false.
Proof. destruct c as [[] [] [] [] [] [] [] []]; intros H; try discriminate H; reflexivity. Qed.

Lemma dashes_lstrip (s : string) : dashes (PyStr.lstrip s) = dashes s.
Proof.
  induction s as [|c r IH]; [reflexivity|].
  cbn. destruct (PyStr.is_space c) eqn:E; [|reflexivity].
  now rewrite (space_not_dash c E).
Qed.

Lemma dashes_rstrip (s : string) : dashes (PyStr.rstrip s) = dashes s.
Proof.
  induction s as [|c r IH]; [reflexivity|].
  cbn [PyStr.rstrip]. destruct (PyStr.rstrip r) as [|c' r'] eqn:E.
  - destruct (PyStr.is_space c) eqn:Es.
    + cbn. rewrite (space_not_dash c Es). exact IH.
    + cbn. rewrite <- IH. reflexivity.
  - cbn [dashes]. cbn [dashes] in IH. rewrite IH. reflexivity.
Qed.

(** Normalization neither adds nor removes a dash. *)
Lemma dashes_normalize (s : string) : dashes (PyStr.upper (PyStr.strip s)) = dashes s.
Proof. unfold PyStr.strip. now rewrite dashes_upper, dashes_rstrip, dashes_lstrip. Qed.

Lemma plain_char_facts (c : ascii) :
  plain_char c = true ->
  PyStr.upper_char c = c /\ PyStr.is_space c = false /\ Ascii.eqb c "-" = false.
Proof.
  destruct c as [[] [] [] [] [] [] [] []]; intros H; try discriminate H; repeat split.
Qed.

Lemma plain_app (a b : string) : plain (a ++ b) = plain a && plain b.
Proof.
  induction a as [|c r IH]; [reflexivity|].
  change (String c r ++ b)%string with (String c (r ++ b)).
  cbn [plain]. rewrite IH. now rewrite andb_assoc.
Qed.

Lemma normal_char_facts (c : ascii) :
  plain_char c || Ascii.eqb c "-" = true ->
  PyStr.upper_char c = c /\ PyStr.is_space c = false.
Proof.
  destruct c as [[] [] [] [] [] [] [] []]; intros H; try discriminate H; repeat split.
Qed.

Lemma upper_normal (s : string) : normal s = true -> PyStr.upper s = s.
Proof.
  induction s as [|c r IH]; [reflexivity|]. cbn. intros H.
  apply andb_true_iff in H as [Hc Hr].
  destruct (normal_char_facts c Hc) as [-> _]. now rewrite IH.
Qed.

Lemma lstrip_normal (s : string) : normal s = true -> PyStr.lstrip s = s.
Proof.
  destruct s as [|c r]; [reflexivity|]. cbn. intros H.
  apply andb_true_iff in H as [Hc _].
  destruct (normal_char_facts c Hc) as [_ ->]. reflexivity.
Qed.

Lemma rstrip_normal (s : string) : normal s = true -> PyStr.rstrip s = s.
Proof.
  induction s as [|c r IH]; [reflexivity|]. cbn [normal PyStr.rstrip]. intros H.
  apply andb_true_iff in H as [Hc Hr].
  destruct (normal_char_facts c Hc) as [_ Hs].
  rewrite (IH Hr). destruct r; [now rewrite Hs | reflexivity].
Qed.

Lemma normalize_normal (s : string) : normal s = true -> PyStr.upper (PyStr.strip s) = s.
Proof.
  intros H. unfold PyStr.strip.
  rewrite (lstrip_normal s H), (rstrip_normal s H). now apply upper_normal.
Qed.

Lemma normal_app (a b : string) : normal (a ++ b) = normal a && normal b.
Proof.
  induction a as [|c r IH]; [reflexivity|].
  change (String c r ++ b)%string with (String c (r ++ b)).
  cbn [normal]. rewrite IH. now rewrite andb_assoc.
Qed.

Lemma plain_normal (s : string) : plain s = true -> normal s = true.
Proof.
  induction s as [|c r IH]; [reflexivity|]. cbn. intros H.
  apply andb_true_iff in H as [Hc Hr]. now rewrite Hc, IH.
Qed.

Lemma split_plain_cons (a rest : string) :
  plain a = true ->
  PyStr.split "-" (a ++ "-" ++ rest) = a :: PyStr.split "-" rest.
Proof.
  induction a as [|c r IH]; intros H; [reflexivity|].
  cbn [plain] in H. apply andb_true_iff in H as [Hc Hr].
  destruct (plain_char_facts c Hc) as (_ & _ & Hd).
  change (String c r ++ "-" ++ rest)%string with (String c (r ++ "-" ++ rest)).
  cbn [PyStr.split]. rewrite Hd, (IH Hr). reflexivity.
Qed.

Lemma split_plain (a : string) : plain a = true -> PyStr.split "-" a = [a].
Proof.
  induction a as [|c r IH]; intros H; [reflexivity|].
  cbn [plain] in H. apply andb_true_iff in H as [Hc Hr].
  destruct (plain_char_facts c Hc) as (_ & _ & Hd).
  cbn [PyStr.split]. rewrite Hd, (IH Hr). reflexivity.
Qed.

(** A code made of four plain fields and a plain signature is its own
    normalization and splits into exactly these five fields. *)
Lemma signed_code_fields (sign : string -> string) (p t ts salt : string) :
  plain p = true -> plain t = true -> plain ts = true -> plain salt = true ->
  plain (sign (p ++ "-" ++ t ++ "-" ++ ts ++ "-" ++ salt)) = true ->
  PyStr.upper (PyStr.strip (signed_code sign p t ts salt)) = signed_code sign p t ts salt
  /\ PyStr.split "-" (signed_code sign p t ts salt)
     = [p; t; ts; salt; sign (p ++ "-" ++ t ++ "-" ++ ts ++ "-" ++ salt)].
Proof.
  intros Hp Ht Hts Hsalt Hsig. unfold signed_code. split.
  - apply normalize_normal.
    rewrite !normal_app. cbn [normal plain_char Ascii.eqb orb andb].
    rewrite (plain_normal _ Hp), (plain_normal _ Ht), (plain_normal _ Hts),
      (plain_normal _ Hsalt), (plain_normal _ Hsig).
    reflexivity.
  - rewrite (split_plain_cons p _ Hp), (split_plain_cons t _ Ht),
      (split_plain_cons ts _ Hts), (split_plain_cons salt _ Hsalt), (split_plain _ Hsig).
    reflexivity.
Qed.

(** ** Texts: digits, hexadecimal digits, signatures *)

Lemma digit_is_plain_char (c : ascii) : PyStr.is_digit c = true -> plain_char c = true.
Proof. destruct c as [[] [] [] [] [] [] [] []]; intros H; try discriminate H; reflexivity. Qed.

Lemma all_digits_plain (s : string) : PolicyBFacts.all_digits s = true -> plain s = true.
Proof.
  induction s as [|c r IH]; [reflexivity|]. cbn [PolicyBFacts.all_digits plain]. intros H.
  apply andb_true_iff in H as [Hc Hr]. now rewrite (digit_is_plain_char c Hc), IH.
Qed.

Lemma all_digits_app (a b : string) :
  PolicyBFacts.all_digits (a ++ b) = PolicyBFacts.all_digits a && PolicyBFacts.all_digits b.
Proof.
  induction a as [|c r IH]; [reflexivity|].
  change (String c r ++ b)%string with (String c (r ++ b)).
  cbn [PolicyBFacts.all_digits]. rewrite IH. now rewrite andb_assoc.
Qed.

Lemma string_length_app (a b : string) :
  String.length (a ++ b) = (String.length a + String.length b)%nat.
Proof.
  induction a as [|c r IH]; [reflexivity|].
  change (String c r ++ b)%string with (String c (r ++ b)). cbn. now rewrite IH.
Qed.

Lemma hex_digit_upper_plain (n : Z) :
  0 <= n < 16 -> plain_char (PyStr.upper_char (Digest.hex_digit n)) = true.
Proof.
  intros H. rewrite <- (Z2Nat.id n) by lia.
  assert (Hk : (Z.to_nat n < 16)%nat) by lia.
  remember (Z.to_nat n) as k eqn:Ek. clear Ek H.
  do 16 (destruct k as [|k]; [reflexivity|]). lia.
Qed.

Lemma nibbles_of_byte (b : Z) :
  0 <= b < 256 -> 0 <= Z.shiftr b 4 < 16 /\ 0 <= Z.land b 15 < 16.
Proof.
  intros H. split.
  - rewrite Z.shiftr_div_pow2 by lia. change (2 ^ 4) with 16.
    split; [apply Z.div_pos; lia | apply Z.div_lt_upper_bound; lia].
  - change 15 with (Z.ones 4). rewrite Z.land_ones by lia. change (2 ^ 4) with 16.
    apply Z.mod_pos_bound. lia.
Qed.

Lemma hexdigest_upper_plain (bs : list Z) :
  bytes_ok bs -> plain (PyStr.upper (Digest.hexdigest bs)) = true.
Proof.
  induction 1 as [|b r Hb Hr IH]; [reflexivity|].
  destruct (nibbles_of_byte b Hb) as [Hhi Hlo].
  cbn [Digest.hexdigest PyStr.upper plain].
  rewrite (hex_digit_upper_plain _ Hhi), (hex_digit_upper_plain _ Hlo), IH. reflexivity.
Qed.

Lemma land_255_byte (x : Z) : 0 <= Z.land x 255 < 256.
Proof.
  change 255 with (Z.ones 8). rewrite Z.land_ones by lia. change (2 ^ 8) with 256.
  apply Z.mod_pos_bound. lia.
Qed.

Lemma bytes_of_word_ok (w : Z) : bytes_ok (Digest.bytes_of_word w).
Proof. unfold Digest.bytes_of_word. repeat constructor; apply land_255_byte. Qed.

Lemma sha256_bytes_ok (m : list Z) : bytes_ok (Digest.sha256 m).
Proof.
  unfold Digest.sha256, Digest.bytes_of_regs, bytes_ok.
  rewrite !Forall_app. repeat split; apply bytes_of_word_ok.
Qed.

Lemma plain_take (n : nat) (s : string) : plain s = true -> plain (PyStr.take n s) = true.
Proof.
  revert s; induction n as [|k IH]; intros s H; [now destruct s|].
  destruct s as [|c r]; [reflexivity|]. cbn [plain] in H. cbn [PyStr.take plain].
  apply andb_true_iff in H as [Hc Hr]. now rewrite Hc, IH.
Qed.

(** A signature has no dash, no white space and no lower-case letter:
    normalization keeps it and it is one field. *)
Lemma generate_signature_plain (key data : string) :
  plain (PolicyA.generate_signature key data) = true.
Proof.
  unfold PolicyA.generate_signature. rewrite upper_take. apply plain_take.
  apply hexdigest_upper_plain. unfold Digest.hmac_sha256. apply sha256_bytes_ok.
Qed.


(** ** Texts: decimal numerals *)

Lemma string_of_uint_digits (d : Decimal.uint) :
  PolicyBFacts.all_digits (NilEmpty.string_of_uint d) = true.
Proof. induction d; cbn; try reflexivity; exact IHd. Qed.

Lemma digits_value_acc (d : Decimal.uint) (acc : positive) :
  digits_value (NilEmpty.string_of_uint d) (Z.pos acc) = Z.pos (Pos.of_uint_acc d acc).
Proof.
  revert acc; induction d; intros acc;
    cbn [NilEmpty.string_of_uint digits_value Pos.of_uint_acc];
    try reflexivity;
    rewrite <- IHd; f_equal; try reflexivity;
    unfold PyStr.digit_val, PyStr.code_of; simpl N_of_ascii; lia.
Qed.

Lemma digits_value_of_uint (d : Decimal.uint) :
  digits_value (NilEmpty.string_of_uint d) 0 = Z.of_N (Pos.of_uint d).
Proof.
  induction d; cbn [NilEmpty.string_of_uint digits_value Pos.of_uint]; try reflexivity;
    try (change (10 * 0 + PyStr.digit_val "0") with 0; exact IHd);
    match goal with
    | |- digits_value _ ?x = Z.of_N (N.pos (Pos.of_uint_acc _ ?p)) =>
        change x with (Z.pos p); apply digits_value_acc
    end.
Qed.

(** The decimal numeral of a number that is not negative: digits only, at
    least one, and they denote the number. *)
Lemma str_of_int_digits (n : Z) :
  0 <= n ->
  PolicyBFacts.all_digits (PyStr.str_of_int n) = true
  /\ PyStr.truthy (PyStr.str_of_int n) = true
  /\ digits_value (PyStr.str_of_int n) 0 = n.
Proof.
  intros Hn. unfold PyStr.str_of_int. destruct n as [|p|p]; [repeat split | | lia].
  cbn [Z.to_int NilZero.string_of_int].
  pose proof (DecimalPos.Unsigned.to_uint_nonnil p) as Hnil.
  unfold NilZero.string_of_uint.
  destruct (Pos.to_uint p) as [|u|u|u|u|u|u|u|u|u|u] eqn:E; [contradiction| ..];
    rewrite <- E;
    (split; [apply string_of_uint_digits|]);
    (split; [rewrite E; reflexivity|]);
    rewrite digits_value_of_uint, DecimalPos.Unsigned.of_to; reflexivity.
Qed.

Lemma zeros_digits (k : nat) : PolicyBFacts.all_digits (PyFormat.zeros k) = true.
Proof. induction k; [reflexivity | exact IHk]. Qed.

Lemma digits_value_zeros (k : nat) (s : string) :
  digits_value (PyFormat.zeros k ++ s) 0 = digits_value s 0.
Proof. induction k; [reflexivity | exact IHk]. Qed.

Lemma truthy_app_r (a b : string) : PyStr.truthy b = true -> PyStr.truthy (a ++ b) = true.
Proof. destruct a; [auto | reflexivity]. Qed.

(** [f"{n:0{w}d}"] of a number that is not negative is made of digits, at
    least one, and [int] reads it back as the number when it has at most
    4300 digits. *)
Lemma zfill_int_digits (width : nat) (n : Z) :
  0 <= n ->
  PolicyBFacts.all_digits (PyFormat.zfill_int width n) = true
  /\ PyStr.truthy (PyFormat.zfill_int width n) = true
  /\ digits_value (PyFormat.zfill_int width n) 0 = n.
Proof.
  intros Hn. destruct (str_of_int_digits n Hn) as (Hall & Hne & Hval).
  unfold PyFormat.zfill_int.
  replace (n <? 0) with false by (symmetry; apply Z.ltb_ge; exact Hn).
  rewrite Z.abs_eq by exact Hn.
  change ("" ++ ?x)%string with x. repeat split.
  - now rewrite all_digits_app, zeros_digits, Hall.
  - now apply truthy_app_r.
  - now rewrite digits_value_zeros.
Qed.


Lemma zfill_int_negative_dash (width : nat) (n : Z) :
  n < 0 -> (1 <= dashes (PyFormat.zfill_int width n))%nat.
Proof.
  intros Hn. unfold PyFormat.zfill_int.
  replace (n <? 0) with true by (symmetry; apply Z.ltb_lt; exact Hn).
  rewrite dashes_app. cbn. lia.
Qed.

(** ** Both servers: a signature that does not match *)



(** ** Policy B: what [activate_code] checks and what it does not *)





(** ** Policy B: the codes that [admin_generate] issues *)


Lemma registered_unused_insert (m : gmap string PolicyB.record) (c c' : string)
    (r : PolicyB.record) :
  PolicyB.rec_used r = false ->
  registered_unused m c ->
  registered_unused (<[PolicyB.hash_code c' := r]> m) c.
Proof.
  intros Hr (r0 & Hlook & Hused). unfold registered_unused.
  destruct (decide (PolicyB.hash_code c' = PolicyB.hash_code c)) as [E|E].
  - exists r. rewrite E, lookup_insert_eq. split; [reflexivity | exact Hr].
  - exists r0. rewrite lookup_insert_ne by exact E. split; assumption.
Qed.

(** What the loop of [admin_generate] leaves: every code issued is the
    signed join of the prefix, the type field of the days, a date read off
    the clock and a salt drawn from the random source, and has an entry that
    is not used; file and clock are not touched. *)
Lemma admin_generate_loop (entropy : nat -> Z) (days : Z) (prefix : string) (n : nat) :
  forall (i : nat) (db : PolicyB.database) (acc : list string) (w : PolicyB.world)
         (good : string -> Prop),
    (forall k j, good (signed_code PolicyB.generate_signature prefix
                         (PolicyBAdmin.type_code_of days)
                         (PyFormat.ymd_of_text (PolicyB.clock w k))
                         (PolicyBAdmin.token_hex_upper (entropy j)))) ->
    Forall (fun c => good c /\ registered_unused (PolicyB.codes db) c) acc ->
    exists db' acc' w',
      PolicyBAdmin.generate_loop entropy days prefix n i db acc w = (Eff.Return (db', acc'), w')
      /\ List.length acc' = (List.length acc + n)%nat
      /\ Forall (fun c => good c /\ registered_unused (PolicyB.codes db') c) acc'
      /\ PolicyB.disk w' = PolicyB.disk w
      /\ PolicyB.writable w' = PolicyB.writable w
      /\ PolicyB.clock w' = PolicyB.clock w.
Proof.
  induction n as [|n IH]; intros i db acc w good Hgood Hacc.
  - exists db, acc, w. cbn. rewrite Nat.add_0_r. repeat split; assumption.
  - cbn [PolicyBAdmin.generate_loop]. unfold Eff.bind at 1. unfold PolicyB.now_text at 1.
    unfold Eff.bind at 1. unfold PolicyB.now_text at 1.
    cbn [PolicyB.disk PolicyB.writable PolicyB.clock PolicyB.reads].
    match goal with
    | |- context [PolicyBAdmin.generate_loop _ _ _ n (S i) ?d ?a ?w0] =>
        destruct (IH (S i) d a w0 good) as (db' & acc' & w' & Hrun & Hlen & Hall & Hd & Hw & Hc)
    end.
    + exact Hgood.
    + apply Forall_app. split.
      * eapply Forall_impl; [exact Hacc|]. intros c [Hg Hr]. split; [exact Hg|].
        cbn [PolicyB.set_codes PolicyB.codes]. apply registered_unused_insert; [reflexivity | exact Hr].
      * constructor; [|constructor]. split; [apply Hgood|].
        cbn [PolicyB.set_codes PolicyB.codes]. eexists. split; [apply lookup_insert_eq | reflexivity].
    + exists db', acc', w'. rewrite Hrun. split; [reflexivity|].
      split; [rewrite Hlen, List.length_app; cbn; lia|].
      split; [exact Hall|]. repeat split; assumption.
Qed.






Lemma verify_code_not_five (raw : string) (w : PolicyB.world) :
  PyStr.truthy (PyStr.upper (PyStr.strip raw)) = true ->
  List.length (PyStr.split "-" (PyStr.upper (PyStr.strip raw))) <> 5%nat ->
  PolicyB.verify_code raw w
  = (Eff.Return (PolicyB.invalid 400 (Eff.Text "激活码格式错误")), w).
Proof.
  intros Htruthy Hlen. apply Nat.eqb_neq in Hlen.
  unfold PolicyB.verify_code, Eff.try_except. rewrite Htruthy. cbn [negb].
  rewrite Hlen. reflexivity.
Qed.

Lemma dashes_signed_code (sign : string -> string) (p t ts salt : string) :
  (dashes t + 4 <= dashes (signed_code sign p t ts salt))%nat.
Proof.
  unfold signed_code. rewrite !dashes_app. cbn [dashes Ascii.eqb Bool.eqb]. lia.
Qed.

Lemma many_dashes_malformed (c : string) (w : PolicyB.world) :
  (5 <= dashes c)%nat ->
  PolicyB.verify_code c w = (Eff.Return (PolicyB.invalid 400 (Eff.Text "激活码格式错误")), w).
Proof.
  intros H. apply verify_code_not_five.
  - pose proof (dashes_normalize c) as E.
    destruct (PyStr.upper (PyStr.strip c)); [cbn in E; lia | reflexivity].
  - rewrite split_length, dashes_normalize. lia.
Qed.

(** X8.  A negative number of days puts a dash into the type field.
    Whatever the prefix, the clock and the random source, every code that
    [admin_generate] issues for a negative number of days has more than five
    fields, and verification refuses it as malformed against any registry,
    the one it was just stored in included. *)
Theorem admin_generate_negative_days_unusable (entropy : nat -> Z) (count days : Z)
    (prefix : string) (w : PolicyB.world) :
  days < 0 ->
  exists r w1,
    PolicyBAdmin.admin_generate entropy count days prefix w = (Eff.Return r, w1)
    /\ (PolicyB.writable w = true ->
        PolicyBAdmin.g_status r = 200
        /\ List.length (PolicyBAdmin.g_codes r) = Z.to_nat count)
    /\ forall c w2,
         In c (PolicyBAdmin.g_codes r) ->
         PolicyB.verify_code c w2
         = (Eff.Return (PolicyB.invalid 400 (Eff.Text "激活码格式错误")), w2).
Proof.
  intros Hdays.
  destruct (admin_generate_loop entropy days prefix (Z.to_nat count) 0
              (PolicyBFacts.registry w) [] w (fun c => (5 <= dashes c)%nat))
    as (db' & cs & w' & Hrun & Hlen' & Hall & Hd & Hw' & Hc).
  { intros k j.
    pose proof (dashes_signed_code PolicyB.generate_signature prefix
                  (PolicyBAdmin.type_code_of days)
                  (PyFormat.ymd_of_text (PolicyB.clock w k))
                  (PolicyBAdmin.token_hex_upper (entropy j))) as Hsum.
    assert (1 <= dashes (PolicyBAdmin.type_code_of days))%nat; [|lia].
    unfold PolicyBAdmin.type_code_of.
    replace (days =? 0) with false by (symmetry; apply Z.eqb_neq; lia).
    cbn [dashes Ascii.eqb Bool.eqb]. apply zfill_int_negative_dash. exact Hdays. }
  { constructor. }
  assert (Hrun' : exists r w1,
             PolicyBAdmin.admin_generate entropy count days prefix w = (Eff.Return r, w1)
             /\ (PolicyB.writable w = true ->
                 PolicyBAdmin.g_status r = 200 /\ PolicyBAdmin.g_codes r = cs)
             /\ (PolicyB.writable w = false -> PolicyBAdmin.g_codes r = [])).
  { unfold PolicyBAdmin.admin_generate, Eff.try_except.
    unfold Eff.bind at 1. rewrite load_database_registry.
    unfold Eff.bind at 1. rewrite Hrun.
    unfold Eff.bind, PolicyB.save_database. cbn [fst snd]. rewrite Hw'.
    destruct (PolicyB.writable w); eexists _, _; (split; [reflexivity|]);
      split; intros E; try discriminate E; try reflexivity.
    split; reflexivity. }
  destruct Hrun' as (r & w1 & Hr & Hok & Hfail).
  exists r, w1. split; [exact Hr|]. split.
  - intros E. destruct (Hok E) as [Hs Hcs]. split; [exact Hs|]. now rewrite Hcs.
  - intros c w2 Hin. apply many_dashes_malformed.
    destruct (PolicyB.writable w) eqn:E.
    + destruct (Hok eq_refl) as [_ Hcs]. rewrite Hcs in Hin.
      apply list_elem_of_In in Hin.
      apply (proj1 (Forall_forall _ _) Hall) in Hin as [Hg _]. exact Hg.
    + rewrite (Hfail eq_refl) in Hin. destruct Hin.
Qed.

(** The theorem at one code issued for minus five days. *)
Lemma admin_generate_negative_days_unusable_witness :
  exists r w1,
    PolicyBAdmin.admin_generate (fun _ => 1) 1 (-5) "SIQIU" fresh_cloud = (Eff.Return r, w1)
    /\ (PolicyB.writable fresh_cloud = true ->
        PolicyBAdmin.g_status r = 200
        /\ List.length (PolicyBAdmin.g_codes r) = 1%nat)
    /\ forall c w2,
         In c (PolicyBAdmin.g_codes r) ->
         PolicyB.verify_code c w2
         = (Eff.Return (PolicyB.invalid 400 (Eff.Text "激活码格式错误")), w2).
Proof.
  apply (admin_generate_negative_days_unusable (fun _ => 1) 1 (-5) "SIQIU" fresh_cloud).
  lia.
Defined.

Example admin_generate_minus_five :
  PolicyBAdmin.g_codes
    <$> match fst (PolicyBAdmin.admin_generate (fun _ => 1) 1 (-5) "SIQIU" fresh_cloud) with
        | Eff.Return r => Some r
        | Eff.Raise _ => None
        end
  = Some ["SIQIU-D-05-20250101-00000001-5FD6C9AF9B850EF4"].
Proof. vm_compute. reflexivity. Qed.

(** X9.  [admin_generate] saves once, after the loop.  When the registry
    file cannot be written it answers 500 with no code at all, and the file
    keeps its content: nothing of what the loop made is kept. *)
Theorem admin_generate_unwritable (entropy : nat -> Z) (count days : Z) (prefix : string)
    (w : PolicyB.world) :
  PolicyB.writable w = false ->
  exists w1,
    PolicyBAdmin.admin_generate entropy count days prefix w
    = (Eff.Return (PolicyBAdmin.GenerateResult 500 false None []
                     (Eff.Failure "生成失败：" Eff.OSError)), w1)
    /\ PolicyB.disk w1 = PolicyB.disk w.
Proof.
  intros Hw.
  destruct (admin_generate_loop entropy days prefix (Z.to_nat count) 0
              (PolicyBFacts.registry w) [] w (fun _ => True))
    as (db' & cs & w' & Hrun & _ & _ & Hd & Hw' & _).
  { intros; exact I. }
  { constructor. }
  exists w'. split; [|exact Hd].
  unfold PolicyBAdmin.admin_generate, Eff.try_except.
  unfold Eff.bind at 1. rewrite load_database_registry.
  unfold Eff.bind at 1. rewrite Hrun.
  unfold Eff.bind, PolicyB.save_database. cbn [fst snd]. rewrite Hw', Hw. reflexivity.
Qed.

(** The theorem at a server whose file cannot be written. *)
Lemma admin_generate_unwritable_witness :
  exists w1,
    PolicyBAdmin.admin_generate (fun _ => 1) 3 7 "SIQIU"
      (PolicyB.World None false (PolicyB.clock fresh_cloud) 0)
    = (Eff.Return (PolicyBAdmin.GenerateResult 500 false None []
                     (Eff.Failure "生成失败：" Eff.OSError)), w1)
    /\ PolicyB.disk w1 = None.
Proof.
  apply (admin_generate_unwritable (fun _ => 1) 3 7 "SIQIU"
           (PolicyB.World None false (PolicyB.clock fresh_cloud) 0)).
  reflexivity.
Defined.

(** ** Policy B: [admin_statistics] *)

Lemma sum_counts_insert_fresh (m : gmap string nat) (k : string) (v : nat) :
  m !! k = None -> sum_counts (<[k := v]> m) = (v + sum_counts m)%nat.
Proof.
  intros H. unfold sum_counts. apply map_fold_insert_L; [|exact H].
  intros j1 j2 z1 z2 y _ _ _. lia.
Qed.

Lemma sum_counts_step (m : gmap string nat) (k : string) :
  sum_counts (<[k := S (default O (m !! k))]> m) = S (sum_counts m).
Proof.
  destruct (m !! k) as [v|] eqn:E; cbn [default from_option id].
  - assert (Hm : sum_counts m = (v + sum_counts (delete k m))%nat).
    { rewrite <- (insert_delete_id m k v E) at 1.
      apply sum_counts_insert_fresh, lookup_delete_eq. }
    rewrite <- insert_delete_eq.
    rewrite sum_counts_insert_fresh by apply lookup_delete_eq. lia.
  - rewrite sum_counts_insert_fresh by exact E. lia.
Qed.

Lemma count_by_type_total (m : gmap string PolicyB.record) :
  sum_counts (PolicyBAdmin.count_by_type m) = size m.
Proof.
  unfold PolicyBAdmin.count_by_type.
  apply (map_fold_weak_ind (fun acc m => sum_counts acc = size m)).
  - reflexivity.
  - intros i x m' acc Hnone IH.
    rewrite sum_counts_step, IH, map_size_insert_None by exact Hnone. reflexivity.
Qed.

Lemma count_used_le (m : gmap string PolicyB.record) : (PolicyBAdmin.count_used m <= size m)%nat.
Proof. unfold PolicyBAdmin.count_used. apply map_subseteq_size, map_filter_subseteq. Qed.

(** X10.  The statistics add up.  [admin_statistics] always answers 200 and
    leaves the world as it was; the used and unused counts sum to the total,
    the unused count is not negative, the per-type counts sum to the total,
    and the usage rate is the fixed text for an empty registry exactly when
    the total is zero. *)
Theorem admin_statistics_add_up (w : PolicyB.world) :
  exists s,
    PolicyBAdmin.admin_statistics w = (Eff.Return (200, PolicyBAdmin.StatisticsOk s), w)
    /\ PolicyBAdmin.s_total s = size (PolicyB.codes (PolicyBFacts.registry w))
    /\ Z.of_nat (PolicyBAdmin.s_used s) + PolicyBAdmin.s_unused s
       = Z.of_nat (PolicyBAdmin.s_total s)
    /\ 0 <= PolicyBAdmin.s_unused s
    /\ sum_counts (PolicyBAdmin.s_by_type s) = PolicyBAdmin.s_total s
    /\ (PolicyBAdmin.s_usage_rate s = PolicyBAdmin.ZeroPercent <-> PolicyBAdmin.s_total s = O).
Proof.
  eexists. split.
  - unfold PolicyBAdmin.admin_statistics, Eff.try_except, Eff.bind.
    rewrite load_database_registry. reflexivity.
  - cbn [PolicyBAdmin.s_total PolicyBAdmin.s_used PolicyBAdmin.s_unused
         PolicyBAdmin.s_by_type PolicyBAdmin.s_usage_rate].
    pose proof (count_used_le (PolicyB.codes (PolicyBFacts.registry w))) as Hle.
    repeat split; try lia.
    + apply count_by_type_total.
    + destruct (size (PolicyB.codes (PolicyBFacts.registry w))); [reflexivity | discriminate].
    + intros ->. reflexivity.
Qed.

(** ** Policy A: the log *)

(** What [add_log] does: one clock reading, the entry appended, the oldest
    entries dropped beyond a thousand, the registry saved. *)
Lemma add_log_effect (action text : string) (result : bool) (m : Eff.msg) (w : PolicyA.world) :
  exists (k : nat) (w' : PolicyA.world),
    PolicyA.add_log action text result m w = (Eff.Return tt, w')
    /\ PolicyA.codes (PolicyA.db w') = PolicyA.codes (PolicyA.db w)
    /\ PolicyA.logs (PolicyA.db w')
       = (skipn k (PolicyA.logs (PolicyA.db w))
            ++ [PolicyA.LogEntry (PolicyA.clock w (PolicyA.reads w)) action text result m])%list
    /\ List.length (PolicyA.logs (PolicyA.db w'))
       = Nat.min (S (List.length (PolicyA.logs (PolicyA.db w)))) 1000
    /\ PolicyA.clock w' = PolicyA.clock w
    /\ PolicyA.reads w' = S (PolicyA.reads w)
    /\ PolicyA.writable w' = PolicyA.writable w
    /\ PolicyA.disk w' = (if PolicyA.writable w then Some (PolicyA.db w') else PolicyA.disk w).
Proof.
  set (e := PolicyA.LogEntry (PolicyA.clock w (PolicyA.reads w)) action text result m).
  set (l := PolicyA.logs (PolicyA.db w)).
  assert (Hlen : List.length (l ++ [e])%list = S (List.length l))
    by (rewrite List.length_app; cbn; lia).
  exists (if (1000 <? List.length (l ++ [e])%list)%nat
          then (List.length (l ++ [e])%list - 1000)%nat else O).
  unfold PolicyA.add_log, Eff.bind, PolicyA.datetime_now, PolicyA.get_db, PolicyA.put_db,
    PolicyA.save_database.
  cbn [PolicyA.db PolicyA.disk PolicyA.writable PolicyA.clock PolicyA.reads].
  fold e. fold l.
  destruct (PolicyA.writable w) eqn:Hw; (eexists; split; [reflexivity|]);
    cbn [PolicyA.db PolicyA.disk PolicyA.writable PolicyA.clock PolicyA.reads
         PolicyA.codes PolicyA.logs];
    (destruct (1000 <? List.length (l ++ [e])%list)%nat eqn:E;
     [apply Nat.ltb_lt in E | apply Nat.ltb_ge in E]);
    repeat split;
    try (rewrite skipn_app;
         replace (List.length (l ++ [e])%list - 1000 - List.length l)%nat with O by lia;
         reflexivity);
    try (rewrite List.length_skipn; lia);
    try (rewrite Hlen; lia).
Qed.

(** X11.  The log is a ring of a thousand entries.  After [add_log], on any
    state, the log holds at most 1000 entries (the smaller of 1000 and one
    more than before), the new entry is the last one, the entries before it
    are the most recent old ones in their order, and the codes are not
    touched. *)
Theorem add_log_keeps_newest_thousand (action text : string) (result : bool) (m : Eff.msg)
    (w : PolicyA.world) :
  exists (k : nat) (w' : PolicyA.world),
    PolicyA.add_log action text result m w = (Eff.Return tt, w')
    /\ PolicyA.codes (PolicyA.db w') = PolicyA.codes (PolicyA.db w)
    /\ PolicyA.logs (PolicyA.db w')
       = (skipn k (PolicyA.logs (PolicyA.db w))
            ++ [PolicyA.LogEntry (PolicyA.clock w (PolicyA.reads w)) action text result m])%list
    /\ List.length (PolicyA.logs (PolicyA.db w'))
       = Nat.min (S (List.length (PolicyA.logs (PolicyA.db w)))) 1000
    /\ (List.length (PolicyA.logs (PolicyA.db w')) <= 1000)%nat.
Proof.
  destruct (add_log_effect action text result m w) as (k & w' & Hrun & Hc & Hl & Hn & _).
  exists k, w'. repeat split; try assumption. rewrite Hn. lia.
Qed.

(** The handler on a code with a matching signature: when
    [verify_code] returns an answer the handler returns it with status 200
    and appends one log entry holding the clock reading taken after the
    method returned, the first ten characters of the code followed by three
    dots, and the answer's verdict and message, without touching the codes;
    when [verify_code] raises, the handler answers 500 and nothing is
    logged. *)
Lemma verify_activation_authentic (raw key p t ts salt sig : string)
    (w : PolicyA.world) :
  let code := PyStr.upper (PyStr.strip raw) in
  PyStr.split "-" code = [p; t; ts; salt; sig] ->
  sig = PolicyA.generate_signature key (p ++ "-" ++ t ++ "-" ++ ts ++ "-" ++ salt) ->
  match PolicyA.verify_code code w with
  | (Eff.Return res, w1) =>
      exists (k : nat) (w2 : PolicyA.world),
        PolicyA.verify_activation key raw w = (Eff.Return (200, res), w2)
        /\ PolicyA.codes (PolicyA.db w2) = PolicyA.codes (PolicyA.db w1)
        /\ PolicyA.logs (PolicyA.db w2)
           = (skipn k (PolicyA.logs (PolicyA.db w1))
                ++ [PolicyA.LogEntry (PolicyA.clock w1 (PolicyA.reads w1)) "verify"
                      (PyStr.take 10 code ++ "...")
                      (PolicyA.valid res) (PolicyA.message res)])%list
        /\ (List.length (PolicyA.logs (PolicyA.db w2)) <= 1000)%nat
  | (Eff.Raise e, w1) =>
      PolicyA.verify_activation key raw w
      = (Eff.Return (500, PolicyA.refuse (Eff.Failure "服务器错误: " e)), w1)
  end.
Proof.
  intros code Hsplit Hsig.
  pose proof (split_five_truthy _ _ _ _ _ _ Hsplit) as Htruthy.
  unfold PolicyA.verify_activation, Eff.try_except. fold code.
  rewrite Htruthy, Hsplit. cbn [negb List.length Nat.eqb].
  rewrite <- Hsig, String.eqb_refl. cbn [negb].
  destruct (PolicyA.verify_code code w) as [[res|e] w1] eqn:Hv;
    [|unfold Eff.bind; rewrite Hv; reflexivity].
  destruct (add_log_effect "verify" (PyStr.take 10 code ++ "...")
              (PolicyA.valid res) (PolicyA.message res) w1)
    as (k & w2 & Hrun & Hc & Hl & Hn & _).
  exists k, w2. unfold Eff.bind. rewrite Hv, Hrun. cbn [Eff.ret].
  repeat split; try assumption. rewrite Hn. lia.
Qed.



(** ** Policy A: registering, issuing and counting *)

(** What [add_code] does: one clock reading, a fresh entry under the hash of
    the code, the registry saved when the file can be written. *)
Lemma add_code_effect (code type_name : string) (d : Z) (notes : string) (w : PolicyA.world) :
  PolicyAAdmin.add_code code type_name d notes w
  = (Eff.Return tt,
     let db' :=
       PolicyA.Database
         (<[PolicyA.hash_code code :=
              PolicyA.Record_ code type_name d notes (PolicyA.clock w (PolicyA.reads w))
                false None None]> (PolicyA.codes (PolicyA.db w)))
         (PolicyA.logs (PolicyA.db w)) in
     PolicyA.World db' (if PolicyA.writable w then Some db' else PolicyA.disk w)
       (PolicyA.writable w) (PolicyA.clock w) (S (PolicyA.reads w))).
Proof.
  unfold PolicyAAdmin.add_code, Eff.bind, PolicyA.datetime_now, PolicyA.get_db, PolicyA.put_db,
    PolicyA.save_database.
  cbn [PolicyA.db PolicyA.disk PolicyA.writable PolicyA.clock PolicyA.reads].
  destruct (PolicyA.writable w); reflexivity.
Qed.

(** X13.  Register, then verify.  [add_code] puts a fresh entry under the
    hash of the code, whatever was there before (an entry already activated
    is reset), touches no other entry and no log entry; the first
    verification after it is valid, of the registered type, activated at the
    clock's next reading. *)
Theorem add_code_then_verify (code type_name : string) (d : Z) (notes : string)
    (w : PolicyA.world) :
  PolicyAFacts.addable (PolicyA.clock w (S (S (PolicyA.reads w)))) d ->
  exists w1 res w2,
    PolicyAAdmin.add_code code type_name d notes w = (Eff.Return tt, w1)
    /\ PolicyA.codes (PolicyA.db w1) !! PolicyA.hash_code code
       = Some (PolicyA.Record_ code type_name d notes (PolicyA.clock w (PolicyA.reads w))
                 false None None)
    /\ (forall k, k <> PolicyA.hash_code code ->
                  PolicyA.codes (PolicyA.db w1) !! k = PolicyA.codes (PolicyA.db w) !! k)
    /\ PolicyA.logs (PolicyA.db w1) = PolicyA.logs (PolicyA.db w)
    /\ (PolicyA.writable w = true -> PolicyA.disk w1 = Some (PolicyA.db w1))
    /\ PolicyA.verify_code code w1 = (Eff.Return res, w2)
    /\ PolicyA.valid res = true
    /\ PolicyA.res_type res = Some type_name
    /\ PolicyA.res_activated_at res = Some (PolicyA.clock w (S (PolicyA.reads w)))
    /\ PolicyA.expire_at res
       = Some (PolicyA.clock w (S (S (PolicyA.reads w))) + d * PolicyA.day).
Proof.
  intros Hadd. eexists _, _, _.
  split; [apply add_code_effect|]. cbn zeta.
  cbn [PolicyA.db PolicyA.codes PolicyA.logs PolicyA.disk PolicyA.writable].
  split; [apply lookup_insert_eq|].
  split; [intros k Hk; apply lookup_insert_ne; intros E; apply Hk; symmetry; exact E|].
  split; [reflexivity|].
  split; [intros ->; reflexivity|].
  split.
  - apply verify_code_first_use with
      (r := PolicyA.Record_ code type_name d notes (PolicyA.clock w (PolicyA.reads w))
              false None None).
    + cbn [PolicyA.db PolicyA.codes]. apply lookup_insert_eq.
    + reflexivity.
    + exact Hadd.
  - cbn. repeat split.
Qed.

(** The theorem at a seven-day code registered over its activated entry. *)
Lemma add_code_then_verify_witness :
  PolicyA.activated <$>
    (PolicyA.codes (PolicyA.db (snd (PolicyA.verify_code demo_code (demo_server 7 true))))
       !! PolicyA.hash_code demo_code) = Some true
  /\ exists w1 res w2,
    PolicyAAdmin.add_code demo_code "试用版" 7 ""
      (snd (PolicyA.verify_code demo_code (demo_server 7 true))) = (Eff.Return tt, w1)
    /\ PolicyA.codes (PolicyA.db w1) !! PolicyA.hash_code demo_code
       = Some (PolicyA.Record_ demo_code "试用版" 7 "" (demo_clock 2) false None None)
    /\ (forall k, k <> PolicyA.hash_code demo_code ->
                  PolicyA.codes (PolicyA.db w1) !! k
                  = PolicyA.codes
                      (PolicyA.db (snd (PolicyA.verify_code demo_code (demo_server 7 true)))) !! k)
    /\ PolicyA.logs (PolicyA.db w1) = []
    /\ (true = true -> PolicyA.disk w1 = Some (PolicyA.db w1))
    /\ PolicyA.verify_code demo_code w1 = (Eff.Return res, w2)
    /\ PolicyA.valid res = true
    /\ PolicyA.res_type res = Some "试用版"
    /\ PolicyA.res_activated_at res = Some (demo_clock 3)
    /\ PolicyA.expire_at res = Some (demo_clock 4 + 7 * PolicyA.day).
Proof.
  split; [vm_compute; reflexivity|].
  apply (add_code_then_verify demo_code "试用版" 7 ""
           (snd (PolicyA.verify_code demo_code (demo_server 7 true)))).
  vm_compute. repeat split; discriminate.
Defined.

(** The codes counted as activated are among the codes. *)
Lemma count_activated_le (m : gmap string PolicyA.record) :
  (PolicyAAdmin.count_activated m <= size m)%nat.
Proof. apply map_subseteq_size, map_filter_subseteq. Qed.

(** Activating an entry that was not activated adds one to the count and
    keeps the size. *)
Lemma count_activated_activate (m : gmap string PolicyA.record) (k : string)
    (r : PolicyA.record) (t : PolicyA.datetime) :
  m !! k = Some r ->
  PolicyA.activated r = false ->
  size (<[k := PolicyA.activate_record r t]> m) = size m
  /\ PolicyAAdmin.count_activated (<[k := PolicyA.activate_record r t]> m)
     = S (PolicyAAdmin.count_activated m).
Proof.
  intros Hlook Hact. split.
  - apply map_size_insert_Some. rewrite Hlook. eexists. reflexivity.
  - unfold PolicyAAdmin.count_activated.
    rewrite map_filter_insert_True by reflexivity.
    apply map_size_insert_None, map_lookup_filter_None_2. right.
    intros x Hx. rewrite Hlook in Hx. injection Hx as <-. cbn. rewrite Hact. discriminate.
Qed.

(** X14.  The counts of [/api/stats] add up.  On every state the handler
    answers 200 without changing anything; the total is the number of
    entries, the activated ones are at most the total, and the unused count
    is their difference, never negative. *)
Theorem get_stats_add_up (w : PolicyA.world) :
  exists s,
    PolicyAAdmin.get_stats w = (Eff.Return (200, PolicyAAdmin.StatsOk s), w)
    /\ PolicyAAdmin.total_codes s = size (PolicyA.codes (PolicyA.db w))
    /\ (PolicyAAdmin.activated_codes s <= PolicyAAdmin.total_codes s)%nat
    /\ Z.of_nat (PolicyAAdmin.activated_codes s) + PolicyAAdmin.unused_codes s
       = Z.of_nat (PolicyAAdmin.total_codes s)
    /\ 0 <= PolicyAAdmin.unused_codes s.
Proof.
  eexists. split; [reflexivity|].
  cbn [PolicyAAdmin.total_codes PolicyAAdmin.activated_codes PolicyAAdmin.unused_codes].
  pose proof (count_activated_le (PolicyA.codes (PolicyA.db w))).
  repeat split; lia.
Qed.

(** X15.  A first use is counted.  When a registered code that is not
    activated is verified for the first time, the statistics taken after it
    show the same total, one more activated code and one less unused code
    than the statistics taken before. *)
Theorem first_verification_counted (code : string) (w : PolicyA.world) (r : PolicyA.record) :
  PolicyA.codes (PolicyA.db w) !! PolicyA.hash_code code = Some r ->
  PolicyA.activated r = false ->
  PolicyAFacts.addable (PolicyA.clock w (S (PolicyA.reads w))) (PolicyA.duration_days r) ->
  exists res w' s s',
    PolicyA.verify_code code w = (Eff.Return res, w')
    /\ PolicyAAdmin.get_stats w = (Eff.Return (200, PolicyAAdmin.StatsOk s), w)
    /\ PolicyAAdmin.get_stats w' = (Eff.Return (200, PolicyAAdmin.StatsOk s'), w')
    /\ PolicyAAdmin.total_codes s' = PolicyAAdmin.total_codes s
    /\ PolicyAAdmin.activated_codes s' = S (PolicyAAdmin.activated_codes s)
    /\ PolicyAAdmin.unused_codes s' = PolicyAAdmin.unused_codes s - 1.
Proof.
  intros Hlook Hact Hadd.
  destruct (count_activated_activate _ _ _ (PolicyA.clock w (PolicyA.reads w)) Hlook Hact)
    as [Hsize Hcount].
  eexists _, _, _, _.
  split; [apply (verify_code_first_use code w r Hlook Hact Hadd)|].
  split; [reflexivity|]. split; [reflexivity|].
  cbn [PolicyAAdmin.total_codes PolicyAAdmin.activated_codes PolicyAAdmin.unused_codes
       PolicyAFacts.tick PolicyAFacts.first_use_world PolicyAFacts.activated_db
       PolicyA.db PolicyA.codes].
  rewrite Hsize, Hcount. repeat split; lia.
Qed.

(** The theorem at the seven-day code of the demonstration server. *)
Lemma first_verification_counted_witness :
  exists res w' s s',
    PolicyA.verify_code demo_code (demo_server 7 true) = (Eff.Return res, w')
    /\ PolicyAAdmin.get_stats (demo_server 7 true)
       = (Eff.Return (200, PolicyAAdmin.StatsOk s), demo_server 7 true)
    /\ PolicyAAdmin.get_stats w' = (Eff.Return (200, PolicyAAdmin.StatsOk s'), w')
    /\ PolicyAAdmin.total_codes s' = PolicyAAdmin.total_codes s
    /\ PolicyAAdmin.activated_codes s' = S (PolicyAAdmin.activated_codes s)
    /\ PolicyAAdmin.unused_codes s' = PolicyAAdmin.unused_codes s - 1.
Proof.
  apply (first_verification_counted demo_code (demo_server 7 true)
           (PolicyA.Record_ demo_code "试用版" 7 "" 63871200000000000 false None None)).
  - vm_compute. reflexivity.
  - reflexivity.
  - vm_compute. repeat split; discriminate.
Defined.

(** Month and day of the calendar date are not negative. *)
Lemma civil_month_day (t : Z) :
  0 <= snd (fst (PyFormat.civil t)) /\ 0 <= snd (PyFormat.civil t).
Proof.
  unfold PyFormat.civil. cbn zeta. cbn [fst snd].
  destruct (_ <? 10) eqn:E; [apply Z.ltb_lt in E | apply Z.ltb_ge in E];
    revert E; Z.div_mod_to_equations; lia.
Qed.

(** The date field of an issued code is made of digits. *)
Lemma strftime_ymd_digits (t : Z) : PolicyBFacts.all_digits (PyFormat.strftime_ymd t) = true.
Proof.
  unfold PyFormat.strftime_ymd. pose proof (civil_month_day t) as [Hm Hd].
  destruct (PyFormat.civil t) as [[y m] d]. cbn [fst snd] in Hm, Hd.
  rewrite !all_digits_app.
  rewrite (proj1 (zfill_int_digits 2 (y mod 100) ltac:(apply Z.mod_pos_bound; lia))),
    (proj1 (zfill_int_digits 2 m Hm)), (proj1 (zfill_int_digits 2 d Hd)).
  reflexivity.
Qed.

(** The salt is drawn from capital letters and digits. *)
Lemma salt_of_plain (p : PolicyAAdmin.draws) : plain (PolicyAAdmin.salt_of p) = true.
Proof.
  assert (H : forall i, plain_char (PolicyAAdmin.choice i) = true).
  { intros i. unfold PolicyAAdmin.choice.
    assert (Hall : List.Forall (fun c => plain_char c = true) PolicyAAdmin.alphabet)
      by (repeat constructor).
    apply (proj1 (List.Forall_nth _ _) Hall).
    change (List.length PolicyAAdmin.alphabet) with 36%nat.
    apply Nat.mod_upper_bound. discriminate. }
  destruct p as [[[a b] c] d]. cbn [PolicyAAdmin.salt_of plain]. rewrite !H. reflexivity.
Qed.

(** The type field of an issued code is one of four words in capitals. *)
Lemma type_map_plain (type_code : string) : plain (fst (PolicyAAdmin.type_map type_code)) = true.
Proof.
  unfold PolicyAAdmin.type_map.
  repeat match goal with |- context [if ?b then _ else _] => destruct b end; reflexivity.
Qed.

Lemma registered_fresh_insert (m : gmap string PolicyA.record) (c c' type_name notes : string)
    (d : Z) (t : PolicyA.datetime) :
  registered_fresh m c type_name d ->
  registered_fresh
    (<[PolicyA.hash_code c' := PolicyA.Record_ c' type_name d notes t false None None]> m)
    c type_name d.
Proof.
  intros (r0 & Hlook & H). unfold registered_fresh.
  destruct (decide (PolicyA.hash_code c' = PolicyA.hash_code c)) as [E|E].
  - eexists. rewrite E, lookup_insert_eq. split; [reflexivity|]. repeat split.
  - exists r0. rewrite lookup_insert_ne by exact E. split; assumption.
Qed.

(** What the loop of [generate_code] leaves: every code issued is the signed
    join of the prefix, the type field, a date read off the clock and a salt
    drawn from the random source, and has an entry that is not activated, of
    the type and duration asked for; the log is not touched, the clock is
    read twice for each code, and the registry is saved when the file can be
    written. *)
Lemma generate_loop_spec (key : string) (random : nat -> PolicyAAdmin.draws)
    (short type_name : string) (d : Z) (notes : string) (n : nat) :
  forall (i : nat) (acc : list string) (w : PolicyA.world) (good : string -> Prop),
    (forall k j, good (signed_code (PolicyA.generate_signature key) "SIQIU" short
                         (PyFormat.strftime_ymd (PolicyA.clock w k))
                         (PolicyAAdmin.salt_of (random j)))) ->
    Forall (fun c => good c /\ registered_fresh (PolicyA.codes (PolicyA.db w)) c type_name d)
           acc ->
    exists acc' w',
      PolicyAAdmin.generate_loop key random short type_name d notes n i acc w
      = (Eff.Return acc', w')
      /\ List.length acc' = (List.length acc + n)%nat
      /\ Forall (fun c => good c
                          /\ registered_fresh (PolicyA.codes (PolicyA.db w')) c type_name d)
                acc'
      /\ PolicyA.logs (PolicyA.db w') = PolicyA.logs (PolicyA.db w)
      /\ PolicyA.writable w' = PolicyA.writable w
      /\ PolicyA.clock w' = PolicyA.clock w
      /\ PolicyA.reads w' = (PolicyA.reads w + 2 * n)%nat
      /\ (PolicyA.writable w = true ->
          PolicyA.disk w = Some (PolicyA.db w) \/ (0 < n)%nat ->
          PolicyA.disk w' = Some (PolicyA.db w')).
Proof.
  induction n as [|n IH]; intros i acc w good Hgood Hacc.
  - exists acc, w. cbn [PolicyAAdmin.generate_loop Eff.ret].
    rewrite !Nat.add_0_r. repeat split; try assumption.
    intros _ [H|H]; [exact H | lia].
  - cbn [PolicyAAdmin.generate_loop]. unfold Eff.bind at 1.
    unfold PolicyAAdmin.generate_activation_code, Eff.bind at 1.
    unfold PolicyA.datetime_now at 1. cbn [Eff.ret].
    unfold Eff.bind at 1. rewrite add_code_effect. cbn zeta.
    match goal with
    | |- context [PolicyAAdmin.generate_loop _ _ _ _ _ _ n (S i) ?a ?w0] =>
        destruct (IH (S i) a w0 good)
          as (acc' & w' & Hrun & Hlen & Hall & Hlogs & Hw & Hc & Hr & Hdisk)
    end.
    + exact Hgood.
    + cbn [PolicyA.db PolicyA.codes PolicyA.clock PolicyA.reads].
      apply Forall_app. split.
      * eapply Forall_impl; [exact Hacc|]. intros c [Hg Hreg]. split; [exact Hg|].
        apply registered_fresh_insert. exact Hreg.
      * constructor; [|constructor]. split; [apply (Hgood (PolicyA.reads w) i)|].
        eexists. split; [apply lookup_insert_eq|]. repeat split.
    + exists acc', w'. rewrite Hrun. split; [reflexivity|].
      cbn [PolicyA.db PolicyA.codes PolicyA.logs PolicyA.disk PolicyA.writable
           PolicyA.clock PolicyA.reads] in Hlogs, Hw, Hc, Hr, Hdisk.
      split; [rewrite Hlen, List.length_app; cbn; lia|].
      split; [exact Hall|].
      split; [exact Hlogs|]. split; [exact Hw|]. split; [exact Hc|].
      split; [rewrite Hr; lia|].
      intros Hwr _. apply Hdisk; [exact Hwr|]. left. rewrite Hwr. reflexivity.
Qed.

(** X16.  Issue, then verify, on the activation server.  With the right
    administrator password [generate_code] answers 200 with as many codes as
    asked for (none for a count that is not positive), registered under the
    type the request maps to, and leaves the log alone; every one of these
    codes, sent to [/api/verify] on the state the issuing left, with the
    same secret key, passes the signature check and is activated: the
    answer is valid, of the issued type, with the activation time the clock
    reads then (for a duration that can be added to the clock's next
    reading). *)
Theorem generate_code_codes_verify (key password : string) (random : nat -> PolicyAAdmin.draws)
    (type_code : string) (d : Z) (notes : string) (count : Z) (w : PolicyA.world) :
  exists cs w1,
    PolicyAAdmin.generate_code key password random password type_code d notes count w
    = (Eff.Return
         (200, PolicyAAdmin.GenerateResult true
                 (Eff.Text ("成功生成 " ++ PyStr.str_of_int count ++ " 个激活码"))
                 cs (Some (snd (PolicyAAdmin.type_map type_code))) (Some d)), w1)
    /\ List.length cs = Z.to_nat count
    /\ PolicyA.logs (PolicyA.db w1) = PolicyA.logs (PolicyA.db w)
    /\ forall c,
         In c cs ->
         PolicyAFacts.addable (PolicyA.clock w1 (S (PolicyA.reads w1))) d ->
         exists res w2,
           PolicyA.verify_activation key c w1 = (Eff.Return (200, res), w2)
           /\ PolicyA.valid res = true
           /\ PolicyA.res_type res = Some (snd (PolicyAAdmin.type_map type_code))
           /\ PolicyA.res_activated_at res = Some (PolicyA.clock w1 (PolicyA.reads w1)).
Proof.
  set (short := fst (PolicyAAdmin.type_map type_code)).
  set (name := snd (PolicyAAdmin.type_map type_code)).
  set (good := fun c : string =>
         exists ts salt, plain ts = true /\ plain salt = true
           /\ c = signed_code (PolicyA.generate_signature key) "SIQIU" short ts salt).
  destruct (generate_loop_spec key random short name d notes (Z.to_nat count) 0 [] w good)
    as (cs & w1 & Hrun & Hlen & Hall & Hlogs & _).
  { intros k j. eexists _, _. split; [|split; [|reflexivity]].
    - apply all_digits_plain, strftime_ymd_digits.
    - apply salt_of_plain. }
  { constructor. }
  exists cs, w1. split; [|split; [|split]].
  - unfold PolicyAAdmin.generate_code, Eff.try_except.
    rewrite String.eqb_refl. cbn [negb].
    fold short. fold name. unfold Eff.bind. rewrite Hrun. reflexivity.
  - exact Hlen.
  - exact Hlogs.
  - intros c Hin Hadd. apply list_elem_of_In in Hin.
    apply (proj1 (Forall_forall _ _) Hall) in Hin as [(ts & salt & Hts & Hsalt & ->) Hreg].
    destruct (signed_code_fields (PolicyA.generate_signature key) "SIQIU" short ts salt
                eq_refl (type_map_plain type_code) Hts Hsalt)
      as [Hnorm Hsplit].
    { apply generate_signature_plain. }
    rewrite <- Hnorm in Hsplit.
    pose proof (verify_activation_authentic _ key _ _ _ _ _ w1 Hsplit eq_refl) as Hverify.
    cbn zeta in Hverify. rewrite Hnorm in Hverify.
    destruct Hreg as (r & Hlook & Hact & Htype & Hdur).
    rewrite <- Hdur in Hadd.
    rewrite (verify_code_first_use _ w1 r Hlook Hact Hadd) in Hverify.
    destruct Hverify as (k & w2 & Hv & _).
    eexists _, w2. split; [exact Hv|]. cbn. rewrite Htype. repeat split.
Qed.

(** The theorem at two monthly codes issued on the demonstration server. *)
Lemma generate_code_codes_verify_witness :
  exists cs w1,
    PolicyAAdmin.generate_code PolicyA.default_secret_key "admin123"
      (fun n => (n, 7, 30, 35)%nat) "admin123" "Month" 30 "" 2 (demo_server 7 true)
    = (Eff.Return
         (200, PolicyAAdmin.GenerateResult true (Eff.Text "成功生成 2 个激活码")
                 cs (Some "月度版") (Some 30)), w1)
    /\ List.length cs = 2%nat
    /\ PolicyA.logs (PolicyA.db w1) = []
    /\ forall c,
         In c cs ->
         PolicyAFacts.addable (PolicyA.clock w1 (S (PolicyA.reads w1))) 30 ->
         exists res w2,
           PolicyA.verify_activation PolicyA.default_secret_key c w1
           = (Eff.Return (200, res), w2)
           /\ PolicyA.valid res = true
           /\ PolicyA.res_type res = Some "月度版"
           /\ PolicyA.res_activated_at res = Some (PolicyA.clock w1 (PolicyA.reads w1)).
Proof.
  exact (generate_code_codes_verify PolicyA.default_secret_key "admin123"
           (fun n => (n, 7, 30, 35)%nat) "Month" 30 "" 2 (demo_server 7 true)).
Defined.

(** X17.  Issuing needs the password, and nothing else can stop it.  For
    every request whose fields are texts and integers as expected,
    [generate_code] answers 200 when the password sent equals the configured
    one and 401 when it does not, never 500; on 401 it lists no code, reads
    no clock and leaves registry and file as they were. *)
Theorem generate_code_password_decides (key admin : string) (random : nat -> PolicyAAdmin.draws)
    (password type_code : string) (d : Z) (notes : string) (count : Z) (w : PolicyA.world) :
  exists body w',
    PolicyAAdmin.generate_code key admin random password type_code d notes count w
    = (Eff.Return (if String.eqb password admin then 200 else 401, body), w')
    /\ PolicyAAdmin.g_success body = String.eqb password admin
    /\ (password <> admin ->
        w' = w /\ PolicyAAdmin.g_codes body = []
        /\ PolicyAAdmin.g_message body = Eff.Text "管理员密码错误").
Proof.
  unfold PolicyAAdmin.generate_code, Eff.try_except.
  destruct (String.eqb password admin) eqn:E; cbn [negb].
  - apply String.eqb_eq in E.
    destruct (generate_loop_spec key random (fst (PolicyAAdmin.type_map type_code))
                (snd (PolicyAAdmin.type_map type_code)) d notes (Z.to_nat count) 0 [] w
                (fun _ => True))
      as (cs & w1 & Hrun & _); [intros; exact I | constructor |].
    unfold Eff.bind. rewrite Hrun. eexists _, _. split; [reflexivity|].
    split; [reflexivity|]. intros Hne. contradiction.
  - eexists _, _. split; [reflexivity|]. split; [reflexivity|]. intros _. repeat split.
Qed.

(** ** Policy B: the life of an issued code *)


